(** * VisualEyes PC companion: the remote-control relay of
      [exam_companion/server.py]

    A shallow embedding of the connection handler ([handle_client]), of the
    idle monitor ([start_inactivity_monitor]), of the mode store
    ([load_mode], [save_mode]), of the autostart registration
    ([set_startup]) and of the start-up logic of the window ([run_gui],
    [choose_mode]), with the properties the specification states about them
    and further properties read off the code.

    Modelling conventions.
    - Values produced by [json.loads] are [pyvalue]s; a Python [dict] with
      string keys is a finite map, so the order of its keys is not
      represented.
    - Exceptions are explicit: fallible code returns a [result].
    - The handler runs in a state-and-exception monad over [world]: the
      process-wide [last_activity], the number of clock readings and screen
      captures taken so far, and the trace of observable events (writes to
      [last_activity], Input Bridge calls, frames sent to the client), oldest
      first.
    - [time.time()] returns floating-point seconds; readings are taken here
      as the exact rationals they denote and subtraction is exact.
    - The libraries the server is linked against ([json], [PIL], [base64])
      and the host it runs on (clock, display) are the fields of [Platform].
      Calls into [pyautogui], [mss] and the websocket are recorded in the
      trace and return normally. *)

From Stdlib Require Import Ascii QArith Lqa.
From stdpp Require Import gmap strings list pretty.

Set Warnings "-register-all".
Local Open Scope string_scope.
Local Open Scope list_scope.

(** ** Python values *)

(** A Python [float]: a finite value, an infinity, or NaN. *)
Inductive pyfloat :=
| FFinite (q : Q)
| FInf (negative : bool)
| FNaN.

(** What [json.loads] can return. *)
Inductive pyvalue :=
| PNone
| PBool (b : bool)
| PInt (n : Z)
| PFloat (x : pyfloat)
| PStr (s : string)
| PList (l : list pyvalue)
| PDict (d : gmap string pyvalue).

Inductive exn :=
| JSONDecodeError
| AttributeError
| OSError
| OtherError (name : string).

Inductive result (A : Type) :=
| Returns (a : A)
| Raises (e : exn).
Arguments Returns {A} a.
Arguments Raises {A} e.

#[export] Instance result_ret : MRet result := fun A a => Returns a.
#[export] Instance result_bind : MBind result := fun A B f m =>
  match m with
  | Returns a => f a
  | Raises e => Raises e
  end.

(** [try: body / except Exception: handler] *)
Definition try_except {A} (body : result A) (handler : exn → result A) : result A :=
  match body with
  | Returns a => Returns a
  | Raises e => handler e
  end.

(** [v is not None] *)
Definition is_not_None (v : pyvalue) : bool :=
  match v with
  | PNone => false
  | _ => true
  end.

(** [v == s] for a string literal [s] *)
Definition py_eq_str (v : pyvalue) (s : string) : bool :=
  match v with
  | PStr s' => String.eqb s' s
  | _ => false
  end.

(** [bool(v)], the test of [if v:] *)
Definition truthy (v : pyvalue) : bool :=
  match v with
  | PNone => false
  | PBool b => b
  | PInt n => negb (n =? 0)%Z
  | PFloat (FFinite q) => negb (Qeq_bool q 0)
  | PFloat _ => true
  | PStr s => negb (String.eqb s EmptyString)
  | PList l => negb (Nat.eqb (length l) 0)
  | PDict d => negb (Nat.eqb (size d) 0)
  end.

(** [data.get(key, default)]: only a [dict] has the method. *)
Definition py_get (data : pyvalue) (key : string) (dflt : pyvalue) : result pyvalue :=
  match data with
  | PDict d => Returns (default dflt (d !! key))
  | _ => Raises AttributeError
  end.

(** ** The platform *)

Definition bytes := list Byte.byte.

(** What [sct.grab] returns: the [size] and [rgb] of the capture. *)
Record ScreenShot := { shot_size : Z * Z; shot_rgb : bytes }.

Class Platform := {
  (** [json.loads(message)] *)
  json_loads : string → result pyvalue;
  (** [json.dumps(obj)] *)
  json_dumps : pyvalue → string;
  Image : Type;
  (** [Image.frombytes(mode, size, data)] *)
  Image_frombytes : string → Z * Z → bytes → Image;
  (** [buf = BytesIO(); img.save(buf, format=..., quality=...); buf.getvalue()] *)
  Image_save : Image → string → Z → bytes;
  (** [base64.b64encode(data).decode("ascii")] *)
  b64encode : bytes → string;
  (** the [k]-th reading of [time.time()] taken by the handler *)
  clock : nat → Q;
  (** what monitor 0 shows at the [k]-th capture *)
  display : nat → ScreenShot
}.

(** ** Events and the world *)

Inductive bridge_call :=
| pyautogui_click (x y : pyvalue)
| pyautogui_moveTo (x y : pyvalue)
| pyautogui_typewrite (text : pyvalue)
| pyautogui_press (key : pyvalue)
| sct_grab.

Inductive event :=
| EActivity (t : Q)
| EBridge (c : bridge_call)
| ESend (frame : string).

Record world := World {
  last_activity : Q;
  time_calls : nat;
  grabs : nat;
  trace : list event
}.

Definition emit (w : world) (es : list event) : world :=
  World (last_activity w) (time_calls w) (grabs w) (trace w ++ es).

Definition bridge_calls (tr : list event) : list bridge_call :=
  omap (λ e, match e with EBridge c => Some c | _ => None end) tr.

Definition replies (tr : list event) : list string :=
  omap (λ e, match e with ESend f => Some f | _ => None end) tr.

Definition stamps (tr : list event) : list Q :=
  omap (λ e, match e with EActivity t => Some t | _ => None end) tr.

(** ** The handler monad *)

Definition M (A : Type) : Type := world → result A * world.

#[export] Instance M_ret : MRet M := fun A a w => (Returns a, w).
#[export] Instance M_bind : MBind M := fun A B f m w =>
  match m w with
  | (Returns a, w') => f a w'
  | (Raises e, w') => (Raises e, w')
  end.

Definition lift {A} (r : result A) : M A := fun w => (r, w).

Definition log (e : event) : M unit := fun w => (Returns (), emit w [e]).

Definition call (c : bridge_call) : M unit := log (EBridge c).

(** [await websocket.send(frame)] *)
Definition websocket_send (frame : string) : M unit := log (ESend frame).

Section Server.
Context `{P : Platform}.

(** [time.time()] *)
Definition time_time : M Q := fun w =>
  (Returns (clock (time_calls w)),
   World (last_activity w) (S (time_calls w)) (grabs w) (trace w)).

(** [last_activity = t] *)
Definition set_last_activity (t : Q) : M unit := fun w =>
  (Returns (), World t (time_calls w) (grabs w) (trace w ++ [EActivity t])).

(** [sct.grab(sct.monitors[0])] *)
Definition grab_monitor0 : M ScreenShot := fun w =>
  (Returns (display (grabs w)),
   World (last_activity w) (time_calls w) (S (grabs w)) (trace w ++ [EBridge sct_grab])).

(** Lines 105-135 of [handle_client]: the command dispatcher. *)
Definition dispatch (data : pyvalue) : M unit :=
  cmd_type ← lift (py_get data "type" PNone);
  if py_eq_str cmd_type "click" then
    x ← lift (py_get data "x" PNone);
    y ← lift (py_get data "y" PNone);
    if is_not_None x && is_not_None y then call (pyautogui_click x y)
    else mret ()
  else if py_eq_str cmd_type "move" then
    x ← lift (py_get data "x" PNone);
    y ← lift (py_get data "y" PNone);
    if is_not_None x && is_not_None y then call (pyautogui_moveTo x y)
    else mret ()
  else if py_eq_str cmd_type "type_text" then
    text ← lift (py_get data "text" (PStr EmptyString));
    call (pyautogui_typewrite text)
  else if py_eq_str cmd_type "key" then
    key ← lift (py_get data "key" PNone);
    if truthy key then call (pyautogui_press key)
    else mret ()
  else if py_eq_str cmd_type "screenshot" then
    screenshot ← grab_monitor0;
    let img := Image_frombytes "RGB" (shot_size screenshot) (shot_rgb screenshot) in
    let buf := Image_save img "JPEG" 60 in
    let encoded := b64encode buf in
    websocket_send
      (json_dumps (PDict {[ "type" := PStr "screenshot"; "data" := PStr encoded ]}))
  else mret ().

(** Lines 99-135: the body of the receive loop for one inbound message.
    [continue] is the normal return of the body. *)
Definition on_message (message : string) : M unit :=
  match json_loads message with
  | Raises JSONDecodeError => mret ()
  | Raises e => lift (Raises e)
  | Returns data =>
      now ← time_time;
      set_last_activity now;;
      dispatch data
  end.

(** [async for message in websocket: ...]; an exception leaves the loop. *)
Fixpoint receive_loop (websocket : list string) : M unit :=
  match websocket with
  | [] => mret ()
  | message :: rest => on_message message;; receive_loop rest
  end.

(** [handle_client], lines 95-135. The websocket is the list of messages the
    peer sends before it closes the connection. *)
Definition handle_client (websocket : list string) : M unit :=
  now ← time_time;
  set_last_activity now;;
  receive_loop websocket.

End Server.

(** ** Idle monitor *)

Definition Qlt_bool (a b : Q) : bool := negb (Qle_bool b a).

Inductive process_state := Active | Terminated.

(** The body of the [while True] loop of [monitor] once [time.sleep(60)] has
    returned: [mode] and [last_activity] are the globals as the thread reads
    them, [now] is its reading of [time.time()]. [Terminated] is
    [os._exit(0)]. *)
Definition monitor_poll (mode : pyvalue) (last_activity now : Q) : process_state :=
  if py_eq_str mode "temporary" then
    if Qlt_bool 7200 (now - last_activity) then Terminated else Active
  else Active.

(** What the monitor thread sees at one wake-up. *)
Record observation := {
  obs_mode : pyvalue;
  obs_last_activity : Q;
  obs_now : Q
}.

(** The monitor over its successive wake-ups: nothing runs after the exit. *)
Fixpoint monitor (polls : list observation) : process_state :=
  match polls with
  | [] => Active
  | o :: rest =>
      match monitor_poll (obs_mode o) (obs_last_activity o) (obs_now o) with
      | Terminated => Terminated
      | Active => monitor rest
      end
  end.

(** ** Mode store *)

Definition CONFIG_DIR_NAME : string := "VisualEyesPC".
Definition CONFIG_FILE_NAME : string := "config.json".

(** The part of the host the mode store touches. [files] maps a path to the
    text of the file there. The four flags say whether the operating system
    lets the corresponding operation succeed. *)
Record filesystem := {
  APPDATA : option string;
  HOME : string;
  files : gmap string string;
  makedirs_ok : bool;
  open_r_ok : bool;
  open_w_ok : bool;
  flush_ok : bool
}.

Definition with_files (fs : filesystem) (f : gmap string string) : filesystem :=
  {| APPDATA := APPDATA fs; HOME := HOME fs; files := f;
     makedirs_ok := makedirs_ok fs; open_r_ok := open_r_ok fs;
     open_w_ok := open_w_ok fs; flush_ok := flush_ok fs |}.

Fixpoint ends_with_sep (s : string) : bool :=
  match s with
  | EmptyString => false
  | String c EmptyString => Ascii.eqb c "/"%char
  | String _ r => ends_with_sep r
  end.

(** [os.path.join(a, b)] for a relative [b], written with the POSIX
    separator. *)
Definition os_path_join (a b : string) : string :=
  if String.eqb a EmptyString || ends_with_sep a then a +:+ b else a +:+ "/" +:+ b.

(** [os.getenv("APPDATA") or os.path.expanduser("~")] *)
Definition config_base (fs : filesystem) : string :=
  match APPDATA fs with
  | Some s => if String.eqb s EmptyString then HOME fs else s
  | None => HOME fs
  end.

Definition os_makedirs (fs : filesystem) (path : string) : result unit :=
  if makedirs_ok fs then Returns () else Raises OSError.

Definition _get_config_path (fs : filesystem) : result string :=
  let base := config_base fs in
  let path := os_path_join base CONFIG_DIR_NAME in
  os_makedirs fs path;;
  mret (os_path_join path CONFIG_FILE_NAME).

(** [with open(path, "r", encoding="utf-8") as f: ... f.read()] *)
Definition read_text (fs : filesystem) (path : string) : result string :=
  if open_r_ok fs then
    match files fs !! path with
    | Some text => Returns text
    | None => Raises OSError
    end
  else Raises OSError.

(** [with open(path, "w", encoding="utf-8") as f: f.write(text)]: opening
    truncates the file, the text reaches it when the file is flushed on
    close. *)
Definition write_text (fs : filesystem) (path text : string) : result unit * filesystem :=
  if open_w_ok fs then
    if flush_ok fs then (Returns (), with_files fs (<[path := text]> (files fs)))
    else (Raises OSError, with_files fs (<[path := EmptyString]> (files fs)))
  else (Raises OSError, fs).

Section ModeStore.
Context `{P : Platform}.

Definition load_mode (fs : filesystem) : result pyvalue :=
  path ← _get_config_path fs;
  if negb (bool_decide (is_Some (files fs !! path))) then Returns PNone
  else
    try_except
      (text ← read_text fs path;
       data ← json_loads text;
       py_get data "mode" PNone)
      (λ _, Returns PNone).

Definition save_mode (value : pyvalue) (fs : filesystem) : result unit * filesystem :=
  match _get_config_path fs with
  | Raises e => (Raises e, fs)
  | Returns path =>
      match write_text fs path (json_dumps (PDict {[ "mode" := value ]})) with
      | (Returns u, fs') => (Returns u, fs')
      | (Raises _, fs') => (Returns (), fs')
      end
  end.

End ModeStore.

(** ** Autostart registration *)

Definition RUN_VALUE_NAME : string := "VisualEyesPC".

Definition double_quote : ascii := ascii_of_nat 34.

(** The registry as [set_startup] sees it: whether the [winreg] module could
    be imported, the values of the [Run] key of the current user, and whether
    the operating system lets each operation succeed. *)
Record registry := {
  winreg_available : bool;
  run_values : gmap string string;
  create_key_ok : bool;
  set_value_ok : bool;
  delete_value_ok : bool
}.

Definition with_run_values (reg : registry) (v : gmap string string) : registry :=
  {| winreg_available := winreg_available reg; run_values := v;
     create_key_ok := create_key_ok reg; set_value_ok := set_value_ok reg;
     delete_value_ok := delete_value_ok reg |}.

(** What the interpreter knows about the running program:
    [getattr(sys, "frozen", False)], [sys.executable] and
    [os.path.abspath(__file__)]. *)
Record runtime := {
  sys_frozen : bool;
  sys_executable : string;
  script_abspath : string
}.

Definition FileNotFoundError : exn := OtherError "FileNotFoundError".

Definition is_FileNotFoundError (e : exn) : bool :=
  match e with
  | OtherError name => String.eqb name "FileNotFoundError"
  | _ => false
  end.

(** [winreg.CreateKey(winreg.HKEY_CURRENT_USER, RUN_KEY_PATH)] *)
Definition winreg_CreateKey (reg : registry) : result unit :=
  if create_key_ok reg then Returns () else Raises OSError.

(** [winreg.SetValueEx(key, name, 0, winreg.REG_SZ, value)] *)
Definition winreg_SetValueEx (reg : registry) (name value : string)
  : result unit * registry :=
  if set_value_ok reg
  then (Returns (), with_run_values reg (<[name := value]> (run_values reg)))
  else (Raises OSError, reg).

(** [winreg.DeleteValue(key, name)]: a value that is not there is a
    [FileNotFoundError]. *)
Definition winreg_DeleteValue (reg : registry) (name : string)
  : result unit * registry :=
  if delete_value_ok reg then
    match run_values reg !! name with
    | Some _ => (Returns (), with_run_values reg (delete name (run_values reg)))
    | None => (Raises FileNotFoundError, reg)
    end
  else (Raises OSError, reg).

(** Lines 66-79 of [set_startup]: the body of its [try] block. Closing the
    key changes no value and is left out. *)
Definition set_startup_body (rt : runtime) (enabled : bool) (reg : registry)
  : result unit * registry :=
  match winreg_CreateKey reg with
  | Raises e => (Raises e, reg)
  | Returns _ =>
      if enabled then
        let exe_path := if sys_frozen rt then sys_executable rt else script_abspath rt in
        winreg_SetValueEx reg RUN_VALUE_NAME
          (String double_quote (exe_path +:+ String double_quote EmptyString))
      else
        match winreg_DeleteValue reg RUN_VALUE_NAME with
        | (Raises e, reg') =>
            if is_FileNotFoundError e then (Returns (), reg') else (Raises e, reg')
        | other => other
        end
  end.

Definition set_startup (rt : runtime) (enabled : bool) (reg : registry)
  : result unit * registry :=
  if negb (winreg_available reg) then (Returns (), reg)
  else
    match set_startup_body rt enabled reg with
    | (Returns u, reg') => (Returns u, reg')
    | (Raises _, reg') => (Returns (), reg')
    end.

(** ** The window *)

Definition PORT : Z := 8765.

(** [get_local_ip]: [route] is what opening the datagram socket, connecting
    it toward 8.8.8.8 and reading its own address gives. *)
Definition get_local_ip (route : result string) : string :=
  match route with
  | Returns ip => ip
  | Raises _ => "127.0.0.1"
  end.

(** What the root window shows. *)
Inductive view :=
| Blank
| ModePrompt
| MainView (url : string).

(** The machine the program runs on. *)
Record host := {
  host_fs : filesystem;
  host_reg : registry;
  host_route : result string;
  host_rt : runtime
}.

Definition with_fs (h : host) (fs : filesystem) : host :=
  {| host_fs := fs; host_reg := host_reg h; host_route := host_route h;
     host_rt := host_rt h |}.

Definition with_reg (h : host) (reg : registry) : host :=
  {| host_fs := host_fs h; host_reg := reg; host_route := host_route h;
     host_rt := host_rt h |}.

(** The global [mode] and the window. *)
Record app := {
  app_mode : pyvalue;
  app_view : view
}.

(** The module body leaves [mode = "temporary"]; [tk.Tk()] opens an empty
    window. *)
Definition initial_app : app := {| app_mode := PStr "temporary"; app_view := Blank |}.

(** [show_main] *)
Definition show_main (h : host) : view :=
  let ip := get_local_ip (host_route h) in
  MainView ("ws://" +:+ ip +:+ ":" +:+ pretty PORT).

Section Gui.
Context `{P : Platform}.

(** [choose_mode(selected)], the command of the two buttons of the prompt. *)
Definition choose_mode (selected : string) (a : app) (h : host)
  : result unit * (app * host) :=
  let mode := PStr selected in
  let a1 := {| app_mode := mode; app_view := app_view a |} in
  match save_mode mode (host_fs h) with
  | (Raises e, fs') => (Raises e, (a1, with_fs h fs'))
  | (Returns _, fs') =>
      let h1 := with_fs h fs' in
      let reg' := (set_startup (host_rt h1) (py_eq_str mode "permanent") (host_reg h1)).2 in
      let h2 := with_reg h1 reg' in
      (Returns (), ({| app_mode := mode; app_view := show_main h2 |}, h2))
  end.

(** [run_gui] up to [root.mainloop()]. *)
Definition run_gui (h : host) : result unit * (app * host) :=
  match load_mode (host_fs h) with
  | Raises e => (Raises e, (initial_app, h))
  | Returns existing =>
      if truthy existing then
        let mode := existing in
        let reg' := (set_startup (host_rt h) (py_eq_str mode "permanent") (host_reg h)).2 in
        let h1 := with_reg h reg' in
        (Returns (), ({| app_mode := mode; app_view := show_main h1 |}, h1))
      else
        (Returns (), ({| app_mode := PStr "temporary"; app_view := ModePrompt |}, h))
  end.

End Gui.

(** ** Vocabulary of the statements *)

Section Vocabulary.
Context `{P : Platform}.

(** The world once [last_activity = time.time()] has run. *)
Definition stamp (w : world) : world :=
  World (clock (time_calls w)) (S (time_calls w)) (grabs w)
        (trace w ++ [EActivity (clock (time_calls w))]).

(** The pointer call a [click] or [move] frame asks for. *)
Definition pointer (cmd : string) (x y : pyvalue) : bridge_call :=
  if String.eqb cmd "click" then pyautogui_click x y else pyautogui_moveTo x y.

(** The reply to a [screenshot] frame when the display shows [shot]. *)
Definition screenshot_reply (shot : ScreenShot) : string :=
  json_dumps
    (PDict {[ "type" := PStr "screenshot";
              "data" := PStr (b64encode
                                (Image_save
                                   (Image_frombytes "RGB" (shot_size shot) (shot_rgb shot))
                                   "JPEG" 60)) ]}).

(** The command types the dispatcher has a branch for. *)
Definition recognized (cmd_type : pyvalue) : bool :=
  py_eq_str cmd_type "click" || py_eq_str cmd_type "move"
  || py_eq_str cmd_type "type_text" || py_eq_str cmd_type "key"
  || py_eq_str cmd_type "screenshot".

(** [message] decodes to a record whose [type] field is the string [cmd]. *)
Definition frame_of_type (message cmd : string) : bool :=
  match json_loads message with
  | Returns (PDict d) => py_eq_str (default PNone (d !! "type")) cmd
  | _ => false
  end.

(** [last_activity] holds the value of the latest write in the trace. *)
Definition latest_stamp (w : world) : Prop :=
  last (stamps (trace w)) = Some (last_activity w).

(** Later readings of the clock are not smaller than earlier ones. *)
Definition monotone_clock : Prop :=
  ∀ i j : nat, (i ≤ j)%nat → (clock i <= clock j)%Q.

(** No reading still to come is smaller than [last_activity]. *)
Definition clock_ahead (w : world) : Prop :=
  ∀ k : nat, (time_calls w ≤ k)%nat → (last_activity w <= clock k)%Q.

(** [json.loads] rejects [message] with [JSONDecodeError]. *)
Definition decode_error (message : string) : bool :=
  match json_loads message with
  | Raises JSONDecodeError => true
  | _ => false
  end.

(** The books balance between [w] and [w'] when [es] are the events logged
    in between: every clock reading taken was written to [last_activity],
    every capture taken was sent as a reply, in the order they were taken,
    and there are no more Input Bridge calls than writes and no more replies
    than calls. *)
Definition accounted (w w' : world) (es : list event) : Prop :=
  trace w' = trace w ++ es
  ∧ time_calls w' = (time_calls w + length (stamps es))%nat
  ∧ stamps es = clock <$> seq (time_calls w) (length (stamps es))
  ∧ grabs w' = (grabs w + length (replies es))%nat
  ∧ replies es
    = (λ k, screenshot_reply (display k)) <$> seq (grabs w) (length (replies es))
  ∧ (length (replies es) ≤ length (bridge_calls es))%nat
  ∧ (length (bridge_calls es) ≤ length (stamps es))%nat.

End Vocabulary.

(** ** A concrete platform

    A small decoder and encoder for JSON text, base64, a fixed display and a
    clock that advances ten seconds per reading. The decoder follows the
    grammar of [json.loads] without fractions, exponents and [\u] escapes,
    which it reports as [OtherError]; the encoder writes the separators of
    [json.dumps] and leaves non-ASCII characters as they are. *)
Module Sample.

Definition dq : ascii := ascii_of_nat 34.
Definition backslash : ascii := ascii_of_nat 92.

Definition quoted (s : string) : string := String dq (s +:+ String dq EmptyString).

Definition unsupported {A} : result A := Raises (OtherError "unsupported").

Definition is_ws (c : ascii) : bool :=
  let n := nat_of_ascii c in
  Nat.eqb n 32 || Nat.eqb n 9 || Nat.eqb n 10 || Nat.eqb n 13.

Fixpoint skip_ws (s : string) : string :=
  match s with
  | String c r => if is_ws c then skip_ws r else s
  | EmptyString => s
  end.

Definition digit_of (c : ascii) : option Z :=
  let n := nat_of_ascii c in
  if Nat.leb 48 n && Nat.leb n 57 then Some (Z.of_nat (n - 48)) else None.

Fixpoint scan_digits (s : string) (acc : Z) : Z * string :=
  match s with
  | String c r =>
      match digit_of c with
      | Some d => scan_digits r (10 * acc + d)
      | None => (acc, s)
      end
  | EmptyString => (acc, s)
  end.

Definition starts_with_digit (s : string) : bool :=
  match s with
  | String c _ => bool_decide (is_Some (digit_of c))
  | EmptyString => false
  end.

(** Does a fraction [.d] or an exponent [e[+-]d] follow? *)
Definition float_follows (s : string) : bool :=
  match s with
  | String "." r => starts_with_digit r
  | String "e" r | String "E" r =>
      match r with
      | String "+" r' | String "-" r' => starts_with_digit r'
      | _ => starts_with_digit r
      end
  | _ => false
  end.

(** An integer literal: an optional minus sign, then a single zero or a
    digit string that does not start with zero. *)
Definition scan_int (s : string) : result (pyvalue * string) :=
  let (neg, body) :=
    match s with
    | String "-" r => (true, r)
    | _ => (false, s)
    end in
  match body with
  | String c r =>
      match digit_of c with
      | Some d =>
          let (n, rest) := if (d =? 0)%Z then (0%Z, r) else scan_digits r d in
          if float_follows rest then unsupported
          else Returns (PInt (if neg then - n else n)%Z, rest)
      | None => Raises JSONDecodeError
      end
  | EmptyString => Raises JSONDecodeError
  end.

Fixpoint strip_prefix (p s : string) : option string :=
  match p, s with
  | EmptyString, _ => Some s
  | String a p', String b s' => if Ascii.eqb a b then strip_prefix p' s' else None
  | String _ _, EmptyString => None
  end.

Definition unescape (c : ascii) : option ascii :=
  if Ascii.eqb c dq then Some dq
  else if Ascii.eqb c backslash then Some backslash
  else match c with
       | "/" => Some "/"
       | "b" => Some (ascii_of_nat 8)
       | "f" => Some (ascii_of_nat 12)
       | "n" => Some (ascii_of_nat 10)
       | "r" => Some (ascii_of_nat 13)
       | "t" => Some (ascii_of_nat 9)
       | _ => None
       end%char.

(** The characters of a string literal after its opening quote. *)
Fixpoint scan_string (s : string) : result (string * string) :=
  match s with
  | EmptyString => Raises JSONDecodeError
  | String c r =>
      if Ascii.eqb c dq then Returns (EmptyString, r)
      else if Ascii.eqb c backslash then
        match r with
        | String e r' =>
            match unescape e with
            | Some c' => '(t, rest) ← scan_string r'; mret (String c' t, rest)
            | None => if Ascii.eqb e "u" then unsupported else Raises JSONDecodeError
            end
        | EmptyString => Raises JSONDecodeError
        end
      else if Nat.ltb (nat_of_ascii c) 32 then Raises JSONDecodeError
      else '(t, rest) ← scan_string r; mret (String c t, rest)
  end.

Definition scan_literal (s : string) : result (pyvalue * string) :=
  match strip_prefix "null" s with
  | Some r => Returns (PNone, r)
  | None =>
  match strip_prefix "true" s with
  | Some r => Returns (PBool true, r)
  | None =>
  match strip_prefix "false" s with
  | Some r => Returns (PBool false, r)
  | None =>
  match strip_prefix "NaN" s with
  | Some r => Returns (PFloat FNaN, r)
  | None =>
  match strip_prefix "Infinity" s with
  | Some r => Returns (PFloat (FInf false), r)
  | None =>
  match strip_prefix "-Infinity" s with
  | Some r => Returns (PFloat (FInf true), r)
  | None => scan_int s
  end end end end end end.

Fixpoint parse_value (fuel : nat) (s : string) : result (pyvalue * string) :=
  match fuel with
  | O => unsupported
  | S n =>
      match s with
      | EmptyString => Raises JSONDecodeError
      | String c r =>
          if Ascii.eqb c dq then '(t, rest) ← scan_string r; mret (PStr t, rest)
          else if Ascii.eqb c "[" then
            match skip_ws r with
            | String "]" rest => Returns (PList [], rest)
            | r' => parse_elements n r' []
            end
          else if Ascii.eqb c "{" then
            match skip_ws r with
            | String "}" rest => Returns (PDict ∅, rest)
            | r' => parse_members n r' ∅
            end
          else scan_literal s
      end
  end
with parse_elements (fuel : nat) (s : string) (acc : list pyvalue)
  : result (pyvalue * string) :=
  match fuel with
  | O => unsupported
  | S n =>
      '(v, r) ← parse_value n s;
      match skip_ws r with
      | String "]" rest => Returns (PList (acc ++ [v]), rest)
      | String "," rest => parse_elements n (skip_ws rest) (acc ++ [v])
      | _ => Raises JSONDecodeError
      end
  end
with parse_members (fuel : nat) (s : string) (acc : gmap string pyvalue)
  : result (pyvalue * string) :=
  match fuel with
  | O => unsupported
  | S n =>
      match s with
      | String c r =>
          if Ascii.eqb c dq then
            '(key, r1) ← scan_string r;
            match skip_ws r1 with
            | String ":" r2 =>
                '(v, r3) ← parse_value n (skip_ws r2);
                match skip_ws r3 with
                | String "}" rest => Returns (PDict (<[key := v]> acc), rest)
                | String "," rest => parse_members n (skip_ws rest) (<[key := v]> acc)
                | _ => Raises JSONDecodeError
                end
            | _ => Raises JSONDecodeError
            end
          else Raises JSONDecodeError
      | EmptyString => Raises JSONDecodeError
      end
  end.

Definition loads (s : string) : result pyvalue :=
  '(v, r) ← parse_value (2 * String.length s + 2) (skip_ws s);
  match skip_ws r with
  | EmptyString => Returns v
  | _ => Raises JSONDecodeError
  end.

Definition hex_digit (n : nat) : ascii :=
  default "0"%char (String.get n "0123456789abcdef").

Definition escape_char (c : ascii) : string :=
  let n := nat_of_ascii c in
  if Ascii.eqb c dq then String backslash (String dq EmptyString)
  else if Ascii.eqb c backslash then String backslash (String backslash EmptyString)
  else if Nat.eqb n 10 then String backslash "n"
  else if Nat.eqb n 13 then String backslash "r"
  else if Nat.eqb n 9 then String backslash "t"
  else if Nat.eqb n 8 then String backslash "b"
  else if Nat.eqb n 12 then String backslash "f"
  else if Nat.ltb n 32 then
    String backslash ("u00" +:+ String (hex_digit (n / 16)) (String (hex_digit (n mod 16)) EmptyString))
  else String c EmptyString.

Fixpoint escape (s : string) : string :=
  match s with
  | EmptyString => EmptyString
  | String c r => escape_char c +:+ escape r
  end.

Fixpoint zeros (n : nat) : string :=
  match n with
  | O => EmptyString
  | S k => String "0" (zeros k)
  end.

(** A finite binary fraction [n / 2^k] in decimal: the digits of [n * 5^k]
    with the point [k] places from the right. *)
Definition float_text (x : pyfloat) : string :=
  match x with
  | FNaN => "NaN"
  | FInf false => "Infinity"
  | FInf true => "-Infinity"
  | FFinite q =>
      let k := Z.to_nat (Z.log2 (Zpos (Qden q))) in
      let digits := pretty (Z.abs (Qnum q) * 5 ^ Z.of_nat k)%Z in
      let padded := zeros (S k - String.length digits) +:+ digits in
      let cut := (String.length padded - k)%nat in
      (if (Qnum q <? 0)%Z then "-" else EmptyString)
        +:+ String.substring 0 cut padded +:+ "."
        +:+ (if Nat.eqb k 0 then "0" else String.substring cut k padded)
  end.

Definition join (sep : string) (parts : list string) : string :=
  String.concat sep parts.

Fixpoint dumps_depth (fuel : nat) (v : pyvalue) : string :=
  match v with
  | PNone => "null"
  | PBool true => "true"
  | PBool false => "false"
  | PInt n => pretty n
  | PFloat x => float_text x
  | PStr s => quoted (escape s)
  | PList l =>
      match fuel with
      | O => EmptyString
      | S n => "[" +:+ join ", " (dumps_depth n <$> l) +:+ "]"
      end
  | PDict d =>
      match fuel with
      | O => EmptyString
      | S n =>
          "{" +:+ join ", " ((λ kv, quoted (escape kv.1) +:+ ": " +:+ dumps_depth n kv.2)
                              <$> map_to_list d) +:+ "}"
      end
  end.

(** Nesting depth of a value, by structural recursion through the list and
    the map. *)
Fixpoint depth (v : pyvalue) : nat :=
  match v with
  | PList l => S (foldr (λ x n, Nat.max (depth x) n) 0 l)
  | PDict d => S (map_fold (λ _ x n, Nat.max (depth x) n) 0 d)
  | _ => 0
  end.

Definition dumps (v : pyvalue) : string := dumps_depth (depth v) v.

Definition b64_alphabet : string :=
  "ABCDEFGHIJKLMNOPQRSTUVWXYZabcdefghijklmnopqrstuvwxyz0123456789+/".

Definition b64_char (n : N) : ascii :=
  default "="%char (String.get (N.to_nat n) b64_alphabet).

Fixpoint base64 (data : bytes) : string :=
  match data with
  | [] => EmptyString
  | [a] =>
      let n := Byte.to_N a in
      String (b64_char (n / 4)) (String (b64_char (n mod 4 * 16)) "==")
  | [a; b] =>
      let n := (Byte.to_N a * 256 + Byte.to_N b)%N in
      String (b64_char (n / 1024))
        (String (b64_char (n / 16 mod 64)) (String (b64_char (n mod 16 * 4)) "="))
  | a :: b :: c :: rest =>
      let n := (Byte.to_N a * 65536 + Byte.to_N b * 256 + Byte.to_N c)%N in
      String (b64_char (n / 262144))
        (String (b64_char (n / 4096 mod 64))
           (String (b64_char (n / 64 mod 64))
              (String (b64_char (n mod 64)) (base64 rest))))
  end.

Definition screen : ScreenShot :=
  {| shot_size := (2, 1)%Z;
     shot_rgb := [Byte.xff; Byte.x00; Byte.x00; Byte.x00; Byte.x80; Byte.xff] |}.

(** A stand-in for the image encoder: it keeps the pixels and records the
    quality after the start-of-image marker. *)
Definition save_image (img : Z * Z * bytes) (format : string) (quality : Z) : bytes :=
  [Byte.xff; Byte.xd8; default Byte.x00 (Byte.of_N (Z.to_N quality))] ++ img.2
    ++ [Byte.xff; Byte.xd9].

#[export] Instance platform : Platform := {|
  json_loads := loads;
  json_dumps := dumps;
  Image := Z * Z * bytes;
  Image_frombytes := λ _ size data, (size, data);
  Image_save := save_image;
  b64encode := base64;
  clock := λ k, inject_Z (1000 + 10 * Z.of_nat k);
  display := λ _, screen
|}.

(** JSON text of a record from the text of its fields. *)
Definition field (name value : string) : string := quoted name +:+ ":" +:+ value.
Definition record (fields : list string) : string := "{" +:+ join "," fields +:+ "}".

(** The frames of the scenarios of the specification. *)
Definition move_frame : string :=
  record [field "type" (quoted "move"); field "x" "100"; field "y" "200"].
Definition click_frame : string :=
  record [field "type" (quoted "click"); field "x" "100"; field "y" "200"].
Definition screenshot_frame : string :=
  record [field "type" (quoted "screenshot")].
Definition type_text_frame : string :=
  record [field "type" (quoted "type_text"); field "text" (quoted "hello")].

(** Further frames: a null coordinate, string coordinates, an empty key
    name, a frame without [type], and JSON text that is not a record. *)
Definition click_null_frame : string :=
  record [field "type" (quoted "click"); field "x" "null"; field "y" "3"].
Definition move_null_frame : string :=
  record [field "type" (quoted "move"); field "x" "5"; field "y" "null"].
Definition move_strings_frame : string :=
  record [field "type" (quoted "move"); field "x" (quoted "left"); field "y" (quoted "top")].
Definition key_empty_frame : string :=
  record [field "type" (quoted "key"); field "key" (quoted EmptyString)].
Definition key_enter_frame : string :=
  record [field "type" (quoted "key"); field "key" (quoted "enter")].
Definition untyped_frame : string := record [field "x" "1"].
Definition click_noisy_frame : string :=
  record [field "type" (quoted "click"); field "x" "100"; field "y" "200";
          field "button" (quoted "right"); field "key" (quoted "enter")].
Definition array_frame : string := "[]".
Definition garbage_frame : string := "hello".

(** A host whose configuration directory can be created and is still
    empty, and one where creating it fails (a plain file of that name is in
    the way, or the place is not writable). *)
Definition fresh_host : filesystem :=
  {| APPDATA := Some "C:/Users/me/AppData/Roaming"; HOME := "C:/Users/me"; files := ∅;
     makedirs_ok := true; open_r_ok := true; open_w_ok := true; flush_ok := true |}.
Definition blocked_host : filesystem :=
  {| APPDATA := Some "C:/Users/me/AppData/Roaming"; HOME := "C:/Users/me"; files := ∅;
     makedirs_ok := false; open_r_ok := true; open_w_ok := true; flush_ok := true |}.

(** The configuration file of these hosts, a host whose file holds JSON
    that is not a record, and a host with a saved mode whose disk is full:
    the file can be opened, the data cannot be flushed. *)
Definition config_file : string := "C:/Users/me/AppData/Roaming/VisualEyesPC/config.json".
Definition corrupt_host : filesystem :=
  {| APPDATA := Some "C:/Users/me/AppData/Roaming"; HOME := "C:/Users/me";
     files := {[ config_file := "[]" ]};
     makedirs_ok := true; open_r_ok := true; open_w_ok := true; flush_ok := true |}.
Definition full_disk_host : filesystem :=
  {| APPDATA := Some "C:/Users/me/AppData/Roaming"; HOME := "C:/Users/me";
     files := {[ config_file := dumps (PDict {[ "mode" := PStr "permanent" ]}) ]};
     makedirs_ok := true; open_r_ok := true; open_w_ok := true; flush_ok := false |}.

(** A host whose file holds a mode that is none of the two names. *)
Definition odd_host : filesystem :=
  {| APPDATA := Some "C:/Users/me/AppData/Roaming"; HOME := "C:/Users/me";
     files := {[ config_file := dumps (PDict {[ "mode" := PStr "Permanent" ]}) ]};
     makedirs_ok := true; open_r_ok := true; open_w_ok := true; flush_ok := true |}.

(** A Windows machine on a local network, running the program as a script. *)
Definition windows_registry : registry :=
  {| winreg_available := true; run_values := ∅; create_key_ok := true;
     set_value_ok := true; delete_value_ok := true |}.
Definition no_winreg : registry :=
  {| winreg_available := false; run_values := ∅; create_key_ok := false;
     set_value_ok := false; delete_value_ok := false |}.
Definition script : runtime :=
  {| sys_frozen := false; sys_executable := "C:/Python/python.exe";
     script_abspath := "C:/VisualEyes/server.py" |}.
Definition pc : host :=
  {| host_fs := fresh_host; host_reg := windows_registry;
     host_route := Returns "192.168.1.20"; host_rt := script |}.

Definition pc_on (fs : filesystem) : host :=
  {| host_fs := fs; host_reg := windows_registry;
     host_route := Returns "192.168.1.20"; host_rt := script |}.

(** The process as the module body leaves it: [last_activity = time.time()]
    took the first reading. *)
Definition boot : world := World (clock 0) 1 0 [].

End Sample.

(** * Properties *)

(** ** Traces *)

Lemma bridge_calls_app (a b : list event) :
  bridge_calls (a ++ b) = bridge_calls a ++ bridge_calls b.
Proof. apply omap_app. Qed.

Lemma replies_app (a b : list event) : replies (a ++ b) = replies a ++ replies b.
Proof. apply omap_app. Qed.

Lemma stamps_app (a b : list event) : stamps (a ++ b) = stamps a ++ stamps b.
Proof. apply omap_app. Qed.

Lemma emit_nil (w : world) : emit w [] = w.
Proof. destruct w; unfold emit; simpl. by rewrite app_nil_r. Qed.

Lemma py_eq_str_true (v : pyvalue) (s : string) :
  py_eq_str v s = true ↔ v = PStr s.
Proof.
  destruct v; simpl; try (split; [discriminate | congruence]).
  rewrite String.eqb_eq. split; congruence.
Qed.

Lemma is_not_None_true (v : pyvalue) : is_not_None v = true ↔ v ≠ PNone.
Proof. destruct v; simpl; split; congruence. Qed.

(** ** One frame *)

Section Frames.
Context `{P : Platform}.

Lemma on_message_decoded (message : string) (data : pyvalue) (w : world) :
  json_loads message = Returns data →
  on_message message w = dispatch data (stamp w).
Proof. intros H. unfold on_message. by rewrite H. Qed.

Lemma on_message_undecodable (message : string) (w : world) :
  json_loads message = Raises JSONDecodeError →
  on_message message w = (Returns (), w).
Proof. intros H. unfold on_message. by rewrite H. Qed.

Lemma on_message_raises (message : string) (e : exn) (w : world) :
  json_loads message = Raises e → e ≠ JSONDecodeError →
  on_message message w = (Raises e, w).
Proof. intros H He. unfold on_message. rewrite H. by destruct e. Qed.

Lemma dispatch_not_dict (data : pyvalue) (w : world) :
  (∀ d, data ≠ PDict d) → dispatch data w = (Raises AttributeError, w).
Proof. intros H. destruct data; try done. by destruct (H d). Qed.

Lemma dispatch_pointer (d : gmap string pyvalue) (cmd : string) (w : world) :
  cmd = "click" ∨ cmd = "move" →
  d !! "type" = Some (PStr cmd) →
  let x := default PNone (d !! "x") in
  let y := default PNone (d !! "y") in
  dispatch (PDict d) w =
    (Returns (),
     emit w (if is_not_None x && is_not_None y then [EBridge (pointer cmd x y)] else [])).
Proof.
  intros Hcmd Ht x y.
  unfold dispatch, mbind, M_bind, lift, py_get, call, log, mret, M_ret.
  rewrite Ht. fold x y.
  destruct Hcmd as [-> | ->]; simpl;
    destruct (is_not_None x && is_not_None y); by rewrite ?emit_nil.
Qed.

Lemma dispatch_type_text (d : gmap string pyvalue) (w : world) :
  d !! "type" = Some (PStr "type_text") →
  dispatch (PDict d) w =
    (Returns (),
     emit w [EBridge (pyautogui_typewrite (default (PStr EmptyString) (d !! "text")))]).
Proof.
  intros Ht.
  unfold dispatch, mbind, M_bind, lift, py_get, call, log, mret, M_ret.
  by rewrite Ht.
Qed.

Lemma dispatch_key (d : gmap string pyvalue) (w : world) :
  d !! "type" = Some (PStr "key") →
  let key := default PNone (d !! "key") in
  dispatch (PDict d) w =
    (Returns (), emit w (if truthy key then [EBridge (pyautogui_press key)] else [])).
Proof.
  intros Ht key.
  unfold dispatch, mbind, M_bind, lift, py_get, call, log, mret, M_ret.
  rewrite Ht. fold key. simpl.
  destruct (truthy key); by rewrite ?emit_nil.
Qed.

Lemma dispatch_screenshot (d : gmap string pyvalue) (w : world) :
  d !! "type" = Some (PStr "screenshot") →
  dispatch (PDict d) w =
    (Returns (),
     World (last_activity w) (time_calls w) (S (grabs w))
           (trace w ++ [EBridge sct_grab; ESend (screenshot_reply (display (grabs w)))])).
Proof.
  intros Ht.
  unfold dispatch, mbind, M_bind, lift, py_get, call, log, mret, M_ret.
  rewrite Ht. simpl. unfold websocket_send, log, emit. simpl.
  by rewrite <- app_assoc.
Qed.

Lemma dispatch_unrecognized (d : gmap string pyvalue) (w : world) :
  recognized (default PNone (d !! "type")) = false →
  dispatch (PDict d) w = (Returns (), w).
Proof.
  unfold recognized. intros H.
  repeat (apply orb_false_elim in H; destruct H as [H ?]).
  unfold dispatch, mbind, M_bind, lift, py_get, mret, M_ret.
  by repeat match goal with E : py_eq_str _ _ = false |- _ => rewrite E; clear E end.
Qed.

End Frames.

(** ** Pointer frames *)

(** C1 (amended). For every successfully decoded frame whose type is
    "click" or "move": when the x and y fields are both present and neither
    is null, the Input Bridge receives exactly one pointer-click (resp.
    pointer-move) call with exactly those coordinates; when either field is
    absent or null, no Input Bridge call is made for that frame. *)
Theorem C1_pointer_frame `{P : Platform}
    (message cmd : string) (d : gmap string pyvalue) (w : world) :
  json_loads message = Returns (PDict d) →
  cmd = "click" ∨ cmd = "move" →
  d !! "type" = Some (PStr cmd) →
  (∀ x y, d !! "x" = Some x → d !! "y" = Some y → x ≠ PNone → y ≠ PNone →
     on_message message w = (Returns (), emit (stamp w) [EBridge (pointer cmd x y)])) ∧
  (d !! "x" = None ∨ d !! "y" = None ∨ d !! "x" = Some PNone ∨ d !! "y" = Some PNone →
     on_message message w = (Returns (), stamp w)).
Proof.
  intros Hload Hcmd Ht.
  rewrite (on_message_decoded _ _ _ Hload), (dispatch_pointer _ _ _ Hcmd Ht).
  split.
  - intros x y -> -> Hx Hy. simpl.
    apply is_not_None_true in Hx, Hy. by rewrite Hx, Hy.
  - intros H.
    assert (is_not_None (default PNone (d !! "x"))
            && is_not_None (default PNone (d !! "y")) = false) as ->.
    { destruct H as [-> | [-> | [-> | ->]]]; simpl; auto using andb_false_r. }
    by rewrite emit_nil.
Qed.

Lemma C1_pointer_frame_witness :
  on_message (P := Sample.platform) Sample.click_frame Sample.boot
  = (Returns (),
     emit (stamp (P := Sample.platform) Sample.boot)
          [EBridge (pyautogui_click (PInt 100) (PInt 200))]).
Proof.
  refine (proj1 (C1_pointer_frame (P := Sample.platform) Sample.click_frame "click"
                   {[ "type" := PStr "click"; "x" := PInt 100; "y" := PInt 200 ]}
                   Sample.boot _ _ _) (PInt 100) (PInt 200) _ _ _ _).
  - vm_compute. reflexivity.
  - left. reflexivity.
  - reflexivity.
  - reflexivity.
  - reflexivity.
  - discriminate.
  - discriminate.
Defined.

(** C1 as stated fails on a frame whose x field is present and null: both
    fields are present, the frame decodes, and no click reaches the Input
    Bridge. *)
Lemma C1_null_coordinate_counterexample :
  let d : gmap string pyvalue :=
    {[ "type" := PStr "click"; "x" := PNone; "y" := PInt 3 ]} in
  json_loads (Platform := Sample.platform) Sample.click_null_frame = Returns (PDict d)
  ∧ d !! "x" = Some PNone ∧ d !! "y" = Some (PInt 3)
  ∧ bridge_calls
      (trace (on_message (P := Sample.platform) Sample.click_null_frame Sample.boot).2) = [].
Proof. vm_compute. auto. Qed.

(** C9 (amended). For every successfully decoded frame of type "click" or
    "move" the dispatcher checks only that the x and y values are not None
    (a field that is absent or null reads as None), not their type: values
    other than None, strings included, are forwarded verbatim to the Input
    Bridge call. *)
Theorem C9_coordinates_unchecked `{P : Platform}
    (message cmd : string) (d : gmap string pyvalue) (x y : pyvalue) (w : world) :
  json_loads message = Returns (PDict d) →
  cmd = "click" ∨ cmd = "move" →
  d !! "type" = Some (PStr cmd) →
  d !! "x" = Some x → d !! "y" = Some y →
  on_message message w
  = (Returns (),
     emit (stamp w)
          (if is_not_None x && is_not_None y then [EBridge (pointer cmd x y)] else []))
  ∧ (∀ s t, x = PStr s → y = PStr t →
       bridge_calls (trace (on_message message w).2)
       = bridge_calls (trace w) ++ [pointer cmd (PStr s) (PStr t)]).
Proof.
  intros Hload Hcmd Ht Hx Hy.
  rewrite (on_message_decoded _ _ _ Hload), (dispatch_pointer _ _ _ Hcmd Ht).
  rewrite Hx, Hy. simpl. split; [done |].
  intros s t -> ->. simpl.
  by rewrite !bridge_calls_app, app_nil_r.
Qed.

Lemma C9_coordinates_unchecked_witness :
  bridge_calls
    (trace (on_message (P := Sample.platform) Sample.move_strings_frame Sample.boot).2)
  = bridge_calls (trace Sample.boot) ++ [pyautogui_moveTo (PStr "left") (PStr "top")].
Proof.
  refine (proj2 (C9_coordinates_unchecked (P := Sample.platform)
                   Sample.move_strings_frame "move"
                   {[ "type" := PStr "move"; "x" := PStr "left"; "y" := PStr "top" ]}
                   (PStr "left") (PStr "top") Sample.boot _ _ _ _ _)
                "left" "top" _ _).
  - vm_compute. reflexivity.
  - right. reflexivity.
  - reflexivity.
  - reflexivity.
  - reflexivity.
  - reflexivity.
  - reflexivity.
Defined.

(** C9 as stated fails on a null coordinate: the y field is not absent, yet
    nothing is forwarded. *)
Lemma C9_null_not_forwarded_counterexample :
  let d : gmap string pyvalue :=
    {[ "type" := PStr "move"; "x" := PInt 5; "y" := PNone ]} in
  json_loads (Platform := Sample.platform) Sample.move_null_frame = Returns (PDict d)
  ∧ d !! "x" = Some (PInt 5) ∧ d !! "y" = Some PNone
  ∧ bridge_calls
      (trace (on_message (P := Sample.platform) Sample.move_null_frame Sample.boot).2) = [].
Proof. vm_compute. auto. Qed.

(** ** Text and key frames *)

(** C8. For every successfully decoded frame of type "type_text" the Input
    Bridge receives exactly one text-injection call: with the empty string
    when the text field is absent, with exactly the value of the field
    otherwise; a frame with type "type_text" and text "hello" yields the
    single call [typewrite("hello")]. *)
Theorem C8_type_text `{P : Platform}
    (message : string) (d : gmap string pyvalue) (w : world) :
  json_loads message = Returns (PDict d) →
  d !! "type" = Some (PStr "type_text") →
  (d !! "text" = None →
     on_message message w
     = (Returns (), emit (stamp w) [EBridge (pyautogui_typewrite (PStr EmptyString))]))
  ∧ (∀ text, d !! "text" = Some text →
       on_message message w
       = (Returns (), emit (stamp w) [EBridge (pyautogui_typewrite text)]))
  ∧ (d = {[ "type" := PStr "type_text"; "text" := PStr "hello" ]} →
       bridge_calls (trace (on_message message w).2)
       = bridge_calls (trace w) ++ [pyautogui_typewrite (PStr "hello")]).
Proof.
  intros Hload Ht.
  rewrite (on_message_decoded _ _ _ Hload), (dispatch_type_text _ _ Ht).
  split; [| split].
  - by intros ->.
  - by intros text ->.
  - intros ->. simpl. by rewrite !bridge_calls_app, app_nil_r.
Qed.

Lemma C8_type_text_witness :
  bridge_calls
    (trace (on_message (P := Sample.platform) Sample.type_text_frame Sample.boot).2)
  = bridge_calls (trace Sample.boot) ++ [pyautogui_typewrite (PStr "hello")].
Proof.
  refine (proj2 (proj2 (C8_type_text (P := Sample.platform) Sample.type_text_frame
                          {[ "type" := PStr "type_text"; "text" := PStr "hello" ]}
                          Sample.boot _ _)) _).
  - vm_compute. reflexivity.
  - reflexivity.
  - reflexivity.
Defined.

(** C10. For every successfully decoded frame of type "key", a key field
    that is present with a falsy value, the empty string among them, is
    treated like an absent field: the frame makes no key-press call, exactly
    as the same frame without its key field. *)
Theorem C10_falsy_key `{P : Platform}
    (message : string) (d : gmap string pyvalue) (key : pyvalue) (w : world) :
  json_loads message = Returns (PDict d) →
  d !! "type" = Some (PStr "key") →
  d !! "key" = Some key →
  truthy key = false →
  on_message message w = (Returns (), stamp w)
  ∧ bridge_calls (trace (on_message message w).2) = bridge_calls (trace w)
  ∧ (∀ message', json_loads message' = Returns (PDict (delete "key" d)) →
       on_message message' w = on_message message w).
Proof.
  intros Hload Ht Hk Hfalsy.
  assert (on_message message w = (Returns (), stamp w)) as Hrun.
  { rewrite (on_message_decoded _ _ _ Hload), (dispatch_key _ _ Ht).
    rewrite Hk. simpl. by rewrite Hfalsy, emit_nil. }
  rewrite Hrun. split; [done | split].
  - simpl. by rewrite bridge_calls_app, app_nil_r.
  - intros message' Hload'.
    rewrite (on_message_decoded _ _ _ Hload'), dispatch_key.
    + rewrite lookup_delete_eq. simpl. by rewrite emit_nil.
    + by rewrite lookup_delete_ne.
Qed.

Lemma C10_falsy_key_witness :
  on_message (P := Sample.platform) Sample.key_empty_frame Sample.boot
  = (Returns (), stamp (P := Sample.platform) Sample.boot).
Proof.
  refine (proj1 (C10_falsy_key (P := Sample.platform) Sample.key_empty_frame
                   {[ "type" := PStr "key"; "key" := PStr EmptyString ]}
                   (PStr EmptyString) Sample.boot _ _ _ _)).
  - vm_compute. reflexivity.
  - reflexivity.
  - reflexivity.
  - reflexivity.
Defined.

(** A key name that is truthy is pressed once. *)
Lemma key_pressed `{P : Platform}
    (message : string) (d : gmap string pyvalue) (key : pyvalue) (w : world) :
  json_loads message = Returns (PDict d) →
  d !! "type" = Some (PStr "key") →
  d !! "key" = Some key →
  truthy key = true →
  on_message message w = (Returns (), emit (stamp w) [EBridge (pyautogui_press key)]).
Proof.
  intros Hload Ht Hk Htruthy.
  rewrite (on_message_decoded _ _ _ Hload), (dispatch_key _ _ Ht).
  rewrite Hk. simpl. by rewrite Htruthy.
Qed.

(** ** What one frame can do *)

Section Effects.
Context `{P : Platform}.

Lemma type_lookup (d : gmap string pyvalue) (cmd : string) :
  py_eq_str (default PNone (d !! "type")) cmd = true → d !! "type" = Some (PStr cmd).
Proof.
  rewrite py_eq_str_true. destruct (d !! "type"); simpl; congruence.
Qed.

(** The dispatcher performs at most one Input Bridge call, replies only to
    a record of type "screenshot", and leaves the clock and [last_activity]
    alone. *)
Lemma dispatch_effects (data : pyvalue) (w : world) :
  ∃ r g es,
    dispatch data w = (r, World (last_activity w) (time_calls w) g (trace w ++ es))
    ∧ stamps es = []
    ∧ (length (bridge_calls es) ≤ 1)%nat
    ∧ replies es =
        match data with
        | PDict d =>
            if py_eq_str (default PNone (d !! "type")) "screenshot"
            then [screenshot_reply (display (grabs w))] else []
        | _ => []
        end.
Proof.
  assert (w = World (last_activity w) (time_calls w) (grabs w) (trace w ++ []))
    as Hsame by (destruct w; simpl; by rewrite app_nil_r).
  destruct data as [| | | | | | d];
    try (exists (Raises AttributeError), (grabs w), [];
         rewrite dispatch_not_dict by done; rewrite <- Hsame; by auto).
  destruct (py_eq_str (default PNone (d !! "type")) "click") eqn:E1.
  { apply type_lookup in E1 as Ht.
    rewrite (dispatch_pointer d "click" w (or_introl eq_refl) Ht). rewrite Ht. simpl.
    eexists _, _, _. split; [reflexivity |].
    destruct (_ && _); simpl; auto. }
  destruct (py_eq_str (default PNone (d !! "type")) "move") eqn:E2.
  { apply type_lookup in E2 as Ht.
    rewrite (dispatch_pointer d "move" w (or_intror eq_refl) Ht). rewrite Ht. simpl.
    eexists _, _, _. split; [reflexivity |].
    destruct (_ && _); simpl; auto. }
  destruct (py_eq_str (default PNone (d !! "type")) "type_text") eqn:E3.
  { apply type_lookup in E3 as Ht.
    rewrite (dispatch_type_text d w Ht). rewrite Ht. simpl.
    eexists _, _, _. split; [reflexivity |]. simpl; auto. }
  destruct (py_eq_str (default PNone (d !! "type")) "key") eqn:E4.
  { apply type_lookup in E4 as Ht.
    rewrite (dispatch_key d w Ht). rewrite Ht. simpl.
    eexists _, _, _. split; [reflexivity |].
    destruct (truthy _); simpl; auto. }
  destruct (py_eq_str (default PNone (d !! "type")) "screenshot") eqn:E5.
  { apply type_lookup in E5 as Ht.
    rewrite (dispatch_screenshot d w Ht).
    eexists _, _, _. split; [reflexivity |]. simpl; auto. }
  rewrite dispatch_unrecognized by (unfold recognized; by rewrite E1, E2, E3, E4, E5).
  exists (Returns ()), (grabs w), []. rewrite <- Hsame. auto.
Qed.

End Effects.

Section FrameEffects.
Context `{P : Platform}.

(** A message either fails to decode and leaves the world as it is, or
    decodes, refreshes [last_activity] and is dispatched. *)
Lemma on_message_effects (message : string) (w : world) :
  (∃ e, json_loads message = Raises e ∧ (on_message message w).2 = w)
  ∨ (∃ data r g es,
       json_loads message = Returns data
       ∧ on_message message w
         = (r, World (clock (time_calls w)) (S (time_calls w)) g
                     (trace w ++ EActivity (clock (time_calls w)) :: es))
       ∧ stamps es = []
       ∧ (length (bridge_calls es) ≤ 1)%nat
       ∧ replies es =
           if frame_of_type message "screenshot"
           then [screenshot_reply (display (grabs w))] else []).
Proof.
  destruct (json_loads message) as [data | e] eqn:Hload.
  - right.
    destruct (dispatch_effects data (stamp w)) as (r & g & es & Hrun & Hst & Hbr & Hrep).
    exists data, r, g, es. rewrite (on_message_decoded _ _ _ Hload), Hrun. simpl.
    rewrite <- app_assoc. repeat split; auto.
    rewrite Hrep. unfold frame_of_type. rewrite Hload. by destruct data.
  - left. exists e. split; [done |].
    unfold on_message. rewrite Hload. by destruct e.
Qed.

Lemma on_message_trace (message : string) (w : world) :
  trace w `prefix_of` trace (on_message message w).2.
Proof.
  destruct (on_message_effects message w)
    as [(e & _ & ->) | (data & r & g & es & _ & -> & _)]; [done |].
  simpl. by eexists.
Qed.

Lemma receive_loop_app (ms1 ms2 : list string) (w : world) :
  receive_loop (ms1 ++ ms2) w
  = match receive_loop ms1 w with
    | (Returns _, w') => receive_loop ms2 w'
    | (Raises e, w') => (Raises e, w')
    end.
Proof.
  revert w. induction ms1 as [| m ms1 IH]; intros w; [done |].
  simpl. unfold mbind, M_bind.
  destruct (on_message m w) as [[[] | e] w']; [apply IH | done].
Qed.

Lemma receive_loop_trace (ms : list string) (w : world) :
  trace w `prefix_of` trace (receive_loop ms w).2.
Proof.
  revert w. induction ms as [| m ms IH]; intros w; [done |].
  simpl. unfold mbind, M_bind.
  pose proof (on_message_trace m w) as Hm.
  destruct (on_message m w) as [[[] | e] w']; simpl in *; [| done].
  etrans; [exact Hm | apply IH].
Qed.

Lemma handle_client_stamp (websocket : list string) (w : world) :
  handle_client websocket w = receive_loop websocket (stamp w).
Proof. reflexivity. Qed.

End FrameEffects.

(** ** Screenshot frames *)

(** C2. Processing a frame sends exactly one reply over the connection when
    the frame decodes to a record of type "screenshot", and none otherwise;
    the reply is the JSON text of a record whose type field is "screenshot"
    and whose data field is the base64 text of the display capture saved as
    JPEG with quality 60. *)
Theorem C2_screenshot_reply `{P : Platform} (message : string) (w : world) :
  replies (trace (on_message message w).2)
  = replies (trace w)
    ++ (if frame_of_type message "screenshot"
        then [screenshot_reply (display (grabs w))] else [])
  ∧ screenshot_reply (display (grabs w))
    = json_dumps
        (PDict {[ "type" := PStr "screenshot";
                  "data" := PStr (b64encode
                                    (Image_save
                                       (Image_frombytes "RGB"
                                          (shot_size (display (grabs w)))
                                          (shot_rgb (display (grabs w))))
                                       "JPEG" 60)) ]}).
Proof.
  split; [| reflexivity].
  destruct (on_message_effects message w)
    as [(e & Hload & ->) | (data & r & g & es & _ & -> & _ & _ & Hrep)].
  - unfold frame_of_type. rewrite Hload. by rewrite app_nil_r.
  - simpl. rewrite replies_app. simpl. by rewrite Hrep.
Qed.

(** ** Frames that are dropped *)

(** A frame the decoder rejects is discarded: nothing is called, nothing is
    sent, [last_activity] stays, and the loop goes on to the next frame. *)
Lemma undecodable_frame_dropped `{P : Platform}
    (message : string) (rest : list string) (w : world) :
  json_loads message = Raises JSONDecodeError →
  on_message message w = (Returns (), w)
  ∧ receive_loop (message :: rest) w = receive_loop rest w.
Proof.
  intros Hload. split; [by apply on_message_undecodable |].
  simpl. unfold mbind, M_bind. by rewrite on_message_undecodable.
Qed.

(** A record whose type is absent or not one of the five commands only
    refreshes [last_activity]; the loop goes on to the next frame. *)
Lemma unrecognized_frame_dropped `{P : Platform}
    (message : string) (d : gmap string pyvalue) (rest : list string) (w : world) :
  json_loads message = Returns (PDict d) →
  recognized (default PNone (d !! "type")) = false →
  on_message message w = (Returns (), stamp w)
  ∧ receive_loop (message :: rest) w = receive_loop rest (stamp w).
Proof.
  intros Hload Hun.
  assert (on_message message w = (Returns (), stamp w)) as Hrun.
  { by rewrite (on_message_decoded _ _ _ Hload), dispatch_unrecognized. }
  split; [done |].
  simpl. unfold mbind, M_bind. by rewrite Hrun.
Qed.

(** C4 (where the code departs from the claim). A frame that decodes to
    JSON data other than a record, an array or a number for instance, has
    no type field; the claim has it dropped with the loop going on. In the
    code the lookup of its type raises AttributeError, which nothing
    catches: the receive loop ends there and the frames behind it on the
    connection are never processed. *)
Theorem C4_non_record_frame_ends_loop `{P : Platform}
    (message : string) (data : pyvalue) (rest : list string) (w : world) :
  json_loads message = Returns data →
  (∀ d, data ≠ PDict d) →
  on_message message w = (Raises AttributeError, stamp w)
  ∧ receive_loop (message :: rest) w = (Raises AttributeError, stamp w).
Proof.
  intros Hload Hnd.
  assert (on_message message w = (Raises AttributeError, stamp w)) as Hrun.
  { by rewrite (on_message_decoded _ _ _ Hload), dispatch_not_dict. }
  split; [done |].
  simpl. unfold mbind, M_bind. by rewrite Hrun.
Qed.

Lemma C4_non_record_frame_witness :
  receive_loop (P := Sample.platform) [Sample.array_frame; Sample.click_frame] Sample.boot
  = (Raises AttributeError, stamp (P := Sample.platform) Sample.boot).
Proof.
  refine (proj2 (C4_non_record_frame_ends_loop (P := Sample.platform)
                   Sample.array_frame (PList []) [Sample.click_frame] Sample.boot _ _)).
  - vm_compute. reflexivity.
  - discriminate.
Defined.

(** On the sample platform: text that is not JSON and a record without a
    type are dropped and the click behind them is dispatched; a named key
    is pressed. *)
Lemma sample_dropped_frames :
  bridge_calls
    (trace (receive_loop (P := Sample.platform)
              [Sample.garbage_frame; Sample.untyped_frame; Sample.click_frame]
              Sample.boot).2)
  = [pyautogui_click (PInt 100) (PInt 200)].
Proof.
  assert (json_loads (Platform := Sample.platform) Sample.garbage_frame
          = Raises JSONDecodeError) as Hgarbage by (vm_compute; reflexivity).
  assert (json_loads (Platform := Sample.platform) Sample.untyped_frame
          = Returns (PDict {[ "x" := PInt 1 ]})) as Huntyped by (vm_compute; reflexivity).
  rewrite (proj2 (undecodable_frame_dropped _ _ Sample.boot Hgarbage)).
  rewrite (proj2 (unrecognized_frame_dropped _ _ _ _ Huntyped eq_refl)).
  vm_compute. reflexivity.
Qed.

Lemma sample_key_pressed :
  bridge_calls
    (trace (on_message (P := Sample.platform) Sample.key_enter_frame Sample.boot).2)
  = [pyautogui_press (PStr "enter")].
Proof.
  rewrite (key_pressed (P := Sample.platform) Sample.key_enter_frame
             {[ "type" := PStr "key"; "key" := PStr "enter" ]} (PStr "enter") Sample.boot);
    vm_compute; reflexivity.
Qed.

(** ** Order of dispatch *)

(** C5. Frames of one connection are dispatched strictly in receipt order:
    whatever the handler does for the frames received first comes, in the
    trace, before everything it does for the frames behind them. For the
    frames move(100,200), click(100,200), screenshot the Input Bridge sees
    exactly moveTo(100,200), click(100,200) and the display capture, in
    that order, and exactly one screenshot reply is sent, after the click
    was dispatched. *)
Theorem C5_receipt_order `{P : Platform} :
  (∀ (ms1 ms2 : list string) (w : world),
     trace (handle_client ms1 w).2 `prefix_of` trace (handle_client (ms1 ++ ms2) w).2)
  ∧ (∀ (m1 m2 m3 : string) (w : world),
       json_loads m1
       = Returns (PDict {[ "type" := PStr "move"; "x" := PInt 100; "y" := PInt 200 ]}) →
       json_loads m2
       = Returns (PDict {[ "type" := PStr "click"; "x" := PInt 100; "y" := PInt 200 ]}) →
       json_loads m3 = Returns (PDict {[ "type" := PStr "screenshot" ]}) →
       let run := handle_client [m1; m2; m3] w in
       run.1 = Returns ()
       ∧ bridge_calls (trace run.2)
         = bridge_calls (trace w)
           ++ [pyautogui_moveTo (PInt 100) (PInt 200);
               pyautogui_click (PInt 100) (PInt 200);
               sct_grab]
       ∧ replies (trace run.2)
         = replies (trace w) ++ [screenshot_reply (display (grabs w))]
       ∧ trace run.2
         = trace w
           ++ [EActivity (clock (time_calls w));
               EActivity (clock (1 + time_calls w));
               EBridge (pyautogui_moveTo (PInt 100) (PInt 200));
               EActivity (clock (2 + time_calls w));
               EBridge (pyautogui_click (PInt 100) (PInt 200));
               EActivity (clock (3 + time_calls w));
               EBridge sct_grab;
               ESend (screenshot_reply (display (grabs w)))]).
Proof.
  split.
  - intros ms1 ms2 w. rewrite !handle_client_stamp, receive_loop_app.
    destruct (receive_loop ms1 (stamp w)) as [[[] | e] w']; simpl; [| done].
    apply receive_loop_trace.
  - intros m1 m2 m3 w H1 H2 H3 run.
    assert (run
            = (Returns (),
               World (clock (3 + time_calls w)) (4 + time_calls w) (S (grabs w))
                 (trace w
                  ++ [EActivity (clock (time_calls w));
                      EActivity (clock (1 + time_calls w));
                      EBridge (pyautogui_moveTo (PInt 100) (PInt 200));
                      EActivity (clock (2 + time_calls w));
                      EBridge (pyautogui_click (PInt 100) (PInt 200));
                      EActivity (clock (3 + time_calls w));
                      EBridge sct_grab;
                      ESend (screenshot_reply (display (grabs w)))]))) as ->.
    { unfold run. rewrite handle_client_stamp. simpl. unfold mbind, M_bind.
      rewrite (on_message_decoded _ _ _ H1).
      match type of H1 with _ = Returns (PDict ?d) =>
        rewrite (dispatch_pointer d "move" _ (or_intror eq_refl) eq_refl)
      end.
      change (default PNone (_ !! "x")) with (PInt 100).
      change (default PNone (_ !! "y")) with (PInt 200). simpl.
      rewrite (on_message_decoded _ _ _ H2).
      match type of H2 with _ = Returns (PDict ?d) =>
        rewrite (dispatch_pointer d "click" _ (or_introl eq_refl) eq_refl)
      end.
      change (default PNone (_ !! "x")) with (PInt 100).
      change (default PNone (_ !! "y")) with (PInt 200). simpl.
      rewrite (on_message_decoded _ _ _ H3).
      match type of H3 with _ = Returns (PDict ?d) =>
        rewrite (dispatch_screenshot d _ eq_refl)
      end. simpl.
      by rewrite <- !app_assoc. }
    simpl. rewrite bridge_calls_app, replies_app. by simpl.
Qed.

Lemma C5_receipt_order_witness :
  bridge_calls
    (trace (handle_client (P := Sample.platform)
              [Sample.move_frame; Sample.click_frame; Sample.screenshot_frame]
              Sample.boot).2)
  = bridge_calls (trace Sample.boot)
    ++ [pyautogui_moveTo (PInt 100) (PInt 200);
        pyautogui_click (PInt 100) (PInt 200);
        sct_grab].
Proof.
  refine (proj1 (proj2 (proj2 (C5_receipt_order (P := Sample.platform))
                          Sample.move_frame Sample.click_frame Sample.screenshot_frame
                          Sample.boot _ _ _))).
  - vm_compute. reflexivity.
  - vm_compute. reflexivity.
  - vm_compute. reflexivity.
Defined.

(** ** The activity timestamp *)

Section Activity.
Context `{P : Platform}.

Lemma stamp_ahead (w : world) :
  monotone_clock → clock_ahead w →
  (last_activity w <= last_activity (stamp w))%Q ∧ clock_ahead (stamp w).
Proof.
  intros Hmono Hw. split.
  - apply Hw. done.
  - intros k Hk. simpl in *. apply Hmono. lia.
Qed.

Lemma on_message_ahead (message : string) (w : world) :
  monotone_clock → clock_ahead w →
  (last_activity w <= last_activity (on_message message w).2)%Q
  ∧ clock_ahead (on_message message w).2.
Proof.
  intros Hmono Hw.
  destruct (on_message_effects message w)
    as [(e & _ & ->) | (data & r & g & es & _ & -> & _)].
  - split; [apply Qle_refl | done].
  - destruct (stamp_ahead w Hmono Hw) as [Hle Hst]. by split.
Qed.

Lemma receive_loop_ahead (ms : list string) (w : world) :
  monotone_clock → clock_ahead w →
  (last_activity w <= last_activity (receive_loop ms w).2)%Q
  ∧ clock_ahead (receive_loop ms w).2.
Proof.
  intros Hmono. revert w. induction ms as [| m ms IH]; intros w Hw.
  - split; [apply Qle_refl | done].
  - simpl. unfold mbind, M_bind.
    destruct (on_message_ahead m w Hmono Hw) as [Hle Hw'].
    destruct (on_message m w) as [[[] | e] w']; simpl in *; [| done].
    destruct (IH w' Hw') as [Hle' Hw''].
    split; [by eapply Qle_trans | done].
Qed.

Lemma on_message_latest_stamp (message : string) (w : world) :
  latest_stamp w → latest_stamp (on_message message w).2.
Proof.
  intros Hw.
  destruct (on_message_effects message w)
    as [(e & _ & ->) | (data & r & g & es & _ & -> & Hst & _)]; [done |].
  unfold latest_stamp. simpl.
  rewrite stamps_app. simpl. rewrite Hst. apply last_snoc.
Qed.

Lemma receive_loop_latest_stamp (ms : list string) (w : world) :
  latest_stamp w → latest_stamp (receive_loop ms w).2.
Proof.
  revert w. induction ms as [| m ms IH]; intros w Hw; [done |].
  simpl. unfold mbind, M_bind.
  pose proof (on_message_latest_stamp m w Hw) as Hw'.
  destruct (on_message m w) as [[[] | e] w']; simpl in *; [by apply IH | done].
Qed.

Lemma handle_client_latest_stamp (ms : list string) (w : world) :
  latest_stamp (handle_client ms w).2.
Proof.
  rewrite handle_client_stamp. apply receive_loop_latest_stamp.
  unfold latest_stamp, stamp. simpl. rewrite stamps_app. apply last_snoc.
Qed.

End Activity.

(** C7 (amended). [last_activity] is overwritten with the current clock
    reading when a connection is accepted and whenever a frame is
    successfully decoded, before the frame is handed to the dispatcher, and
    at no other point of the connection handler: the dispatcher leaves it
    alone and a frame that fails to decode leaves the whole world as it was;
    when the handler ends it holds the reading of the latest of these writes.
    Provided the clock readings never decrease, [last_activity] never moves
    backward, neither across a frame nor across a connection. *)
Theorem C7_activity_timestamp `{P : Platform} :
  (∀ (ws : list string) (w : world), handle_client ws w = receive_loop ws (stamp w))
  ∧ (∀ (message : string) (data : pyvalue) (w : world),
       json_loads message = Returns data →
       on_message message w = dispatch data (stamp w)
       ∧ last_activity (on_message message w).2 = clock (time_calls w)
       ∧ ∃ es, trace (on_message message w).2
               = trace w ++ EActivity (clock (time_calls w)) :: es
               ∧ stamps es = [])
  ∧ (∀ (message : string) (e : exn) (w : world),
       json_loads message = Raises e → (on_message message w).2 = w)
  ∧ (∀ (ws : list string) (w : world), latest_stamp (handle_client ws w).2)
  ∧ (monotone_clock →
     ∀ (ws : list string) (w : world), clock_ahead w →
       (∀ message : string,
          (last_activity w <= last_activity (on_message message w).2)%Q
          ∧ clock_ahead (on_message message w).2)
       ∧ (last_activity w <= last_activity (handle_client ws w).2)%Q
       ∧ clock_ahead (handle_client ws w).2).
Proof.
  split; [| split; [| split; [| split]]].
  - intros. apply handle_client_stamp.
  - intros message data w Hload.
    split; [by apply on_message_decoded |].
    destruct (on_message_effects message w)
      as [(e & He & _) | (data' & r & g & es & _ & -> & Hst & _)]; [congruence |].
    simpl. eauto.
  - intros message e w Hload.
    destruct (on_message_effects message w)
      as [(e' & _ & ->) | (data & r & g & es & Hd & _)]; [done | congruence].
  - intros ws w. apply handle_client_latest_stamp.
  - intros Hmono ws w Hw. split.
    + intros message. by apply on_message_ahead.
    + rewrite handle_client_stamp.
      destruct (stamp_ahead w Hmono Hw) as [Hle Hst].
      destruct (receive_loop_ahead ws (stamp w) Hmono Hst) as [Hle' Hw'].
      split; [by eapply Qle_trans | done].
Qed.

Lemma sample_clock_monotone : monotone_clock (P := Sample.platform).
Proof.
  intros i j Hij. simpl. rewrite <- Zle_Qle. lia.
Qed.

Lemma sample_boot_ahead : clock_ahead (P := Sample.platform) Sample.boot.
Proof.
  intros k Hk. simpl. rewrite <- Zle_Qle. lia.
Qed.

Lemma C7_activity_timestamp_witness :
  (last_activity Sample.boot
   <= last_activity
        (handle_client (P := Sample.platform)
           [Sample.garbage_frame; Sample.click_frame] Sample.boot).2)%Q.
Proof.
  refine (proj1 (proj2 (proj2 (proj2 (proj2 (proj2
                    (C7_activity_timestamp (P := Sample.platform)))))
                          _ [Sample.garbage_frame; Sample.click_frame] Sample.boot _))).
  - exact sample_clock_monotone.
  - exact sample_boot_ahead.
Defined.

(** C7 as stated fails when a connection is accepted: the peer sends no
    frame at all, nothing is decoded, and [last_activity] still moves from
    the reading 1000 to the reading 1010. *)
Lemma C7_stamp_on_accept_counterexample :
  let run := handle_client (P := Sample.platform) [] Sample.boot in
  last_activity Sample.boot = inject_Z 1000
  ∧ last_activity run.2 = inject_Z 1010
  ∧ stamps (trace run.2) = [inject_Z 1010]
  ∧ ¬ (last_activity run.2 == last_activity Sample.boot)%Q.
Proof.
  vm_compute. repeat split; discriminate.
Qed.

(** ** The idle monitor *)

Lemma Qlt_bool_true (a b : Q) : Qlt_bool a b = true ↔ (a < b)%Q.
Proof.
  unfold Qlt_bool. rewrite negb_true_iff, <- not_true_iff_false, Qle_bool_iff.
  split; [apply Qnot_le_lt | apply Qlt_not_le].
Qed.

Lemma monitor_poll_terminated (mode : pyvalue) (last now : Q) :
  monitor_poll mode last now = Terminated
  ↔ mode = PStr "temporary" ∧ (7200 < now - last)%Q.
Proof.
  unfold monitor_poll.
  destruct (py_eq_str mode "temporary") eqn:Em.
  - apply py_eq_str_true in Em as ->.
    destruct (Qlt_bool 7200 (now - last)) eqn:Eq.
    + apply Qlt_bool_true in Eq. by split.
    + split; [done |]. intros [_ Hlt]. apply Qlt_bool_true in Hlt. congruence.
  - split; [done |]. intros [-> _]. done.
Qed.

(** C3. In a polling step of the idle monitor: when the mode is
    "temporary" and the time elapsed since [last_activity] exceeds 7200
    seconds, the process exits at once, whatever polls would have followed;
    when the mode is "permanent", no polling step exits, however long the
    idle time, so the monitor never terminates the process. *)
Theorem C3_idle_monitor :
  (∀ last now : Q, (7200 < now - last)%Q →
     monitor_poll (PStr "temporary") last now = Terminated)
  ∧ (∀ (o : observation) (rest : list observation),
       obs_mode o = PStr "temporary" →
       (7200 < obs_now o - obs_last_activity o)%Q →
       monitor (o :: rest) = Terminated)
  ∧ (∀ last now : Q, monitor_poll (PStr "permanent") last now = Active)
  ∧ (∀ polls : list observation,
       Forall (λ o, obs_mode o = PStr "permanent") polls → monitor polls = Active).
Proof.
  split; [| split; [| split]].
  - intros last now Hlt. by apply monitor_poll_terminated.
  - intros o rest Hm Hlt. simpl.
    by rewrite (proj2 (monitor_poll_terminated _ _ _) (conj Hm Hlt)).
  - done.
  - intros polls Hall. induction Hall as [| o polls Ho _ IH]; [done |].
    simpl. by rewrite Ho.
Qed.

Lemma C3_idle_monitor_witness :
  monitor_poll (PStr "temporary") (inject_Z 1000) (inject_Z 8201) = Terminated
  ∧ monitor [ {| obs_mode := PStr "permanent"; obs_last_activity := inject_Z 1000;
                 obs_now := inject_Z 900000 |} ] = Active.
Proof.
  split.
  - apply (proj1 C3_idle_monitor (inject_Z 1000) (inject_Z 8201)). reflexivity.
  - apply (proj2 (proj2 (proj2 C3_idle_monitor))). repeat constructor.
Defined.

(** ** The mode store *)

Section ModeStoreFacts.
Context `{P : Platform}.

(** The path of the configuration file of a host. *)
Lemma config_path (fs : filesystem) :
  makedirs_ok fs = true →
  _get_config_path fs
  = Returns (os_path_join (os_path_join (config_base fs) CONFIG_DIR_NAME) CONFIG_FILE_NAME).
Proof. intros H. unfold _get_config_path, os_makedirs. by rewrite H. Qed.

Lemma config_path_with_files (fs : filesystem) (f : gmap string string) :
  _get_config_path (with_files fs f) = _get_config_path fs.
Proof. reflexivity. Qed.

(** No record persisted: [load_mode] returns None. *)
Lemma load_mode_unset (fs : filesystem) (path : string) :
  _get_config_path fs = Returns path →
  files fs !! path = None →
  load_mode fs = Returns PNone.
Proof.
  intros Hp Hf. unfold load_mode. rewrite Hp. simpl. rewrite Hf.
  rewrite bool_decide_eq_false_2; [done |]. by intros [? ?].
Qed.

(** Once the path is known, [load_mode] returns: whatever goes wrong while
    the file is opened, read or decoded yields None. *)
Lemma load_mode_returns (fs : filesystem) (path : string) :
  _get_config_path fs = Returns path →
  ∃ v, load_mode fs = Returns v
       ∧ (v ≠ PNone →
          ∃ text d, open_r_ok fs = true ∧ files fs !! path = Some text
                    ∧ json_loads text = Returns (PDict d) ∧ d !! "mode" = Some v).
Proof.
  intros Hp. unfold load_mode. rewrite Hp. simpl.
  destruct (files fs !! path) as [text |] eqn:Hf.
  2: { rewrite bool_decide_eq_false_2 by (by intros [? ?]). simpl. by exists PNone. }
  rewrite bool_decide_eq_true_2 by eauto. simpl.
  unfold read_text. rewrite Hf.
  destruct (open_r_ok fs); simpl; [| by exists PNone].
  destruct (json_loads text) as [data | e] eqn:Hl; simpl; [| by exists PNone].
  destruct data as [| | | | | | d]; simpl; try by exists PNone.
  exists (default PNone (d !! "mode")). split; [done |].
  intros Hv. exists text, d. repeat split; auto.
  destruct (d !! "mode"); simpl in *; congruence.
Qed.

(** A failure to open the file for writing leaves the host as it was; the
    error is swallowed. *)
Lemma save_mode_not_writable (value : pyvalue) (fs : filesystem) :
  makedirs_ok fs = true → open_w_ok fs = false →
  save_mode value fs = (Returns (), fs).
Proof.
  intros Hd Hw. unfold save_mode. rewrite (config_path _ Hd).
  unfold write_text. by rewrite Hw.
Qed.

(** A failure while the data is flushed is swallowed too, but the file has
    been truncated by then. *)
Lemma save_mode_flush_failure (value : pyvalue) (fs : filesystem) (path : string) :
  _get_config_path fs = Returns path →
  open_w_ok fs = true → flush_ok fs = false →
  save_mode value fs
  = (Returns (), with_files fs (<[path := EmptyString]> (files fs))).
Proof.
  intros Hp Hw Hf. unfold save_mode. rewrite Hp.
  unfold write_text. by rewrite Hw, Hf.
Qed.

(** Round trip: on a host where the directory can be made and the file
    written and read, a saved mode is what [load_mode] returns afterwards,
    provided the JSON text of the record reads back as the record. The
    store is the file system alone, so the same holds for a [load_mode] run
    by a later process on the same host. *)
Lemma mode_round_trip (value : pyvalue) (fs : filesystem) :
  makedirs_ok fs = true → open_w_ok fs = true → flush_ok fs = true →
  open_r_ok fs = true →
  json_loads (json_dumps (PDict {[ "mode" := value ]}))
  = Returns (PDict {[ "mode" := value ]}) →
  (save_mode value fs).1 = Returns ()
  ∧ load_mode (save_mode value fs).2 = Returns value.
Proof.
  intros Hd Hw Hf Hr Hcodec.
  unfold save_mode. rewrite (config_path _ Hd).
  unfold write_text. rewrite Hw, Hf. simpl. split; [done |].
  unfold load_mode. rewrite config_path_with_files, (config_path _ Hd). simpl.
  rewrite lookup_insert_eq.
  rewrite bool_decide_eq_true_2 by eauto. simpl.
  unfold read_text. simpl. rewrite Hr, lookup_insert_eq. simpl.
  rewrite Hcodec. simpl. by rewrite lookup_singleton_eq.
Qed.

End ModeStoreFacts.

(** Both operating modes survive the round trip on the sample platform, and
    a fresh host has no mode. *)
Lemma sample_round_trip :
  load_mode (P := Sample.platform)
    (save_mode (P := Sample.platform) (PStr "permanent") Sample.fresh_host).2
  = Returns (PStr "permanent")
  ∧ load_mode (P := Sample.platform)
      (save_mode (P := Sample.platform) (PStr "temporary") Sample.fresh_host).2
    = Returns (PStr "temporary")
  ∧ load_mode (P := Sample.platform) Sample.fresh_host = Returns PNone.
Proof.
  split; [| split].
  - apply (mode_round_trip (P := Sample.platform)); vm_compute; reflexivity.
  - apply (mode_round_trip (P := Sample.platform)); vm_compute; reflexivity.
  - vm_compute. reflexivity.
Qed.

(** C6 (where the code departs from the claim). The claim has every
    failure of the store swallowed, [load_mode] giving None and [save_mode]
    doing nothing. Both functions compute the path of the file, which
    creates the configuration directory, before their [try] block: when the
    directory cannot be created the error propagates out of [load_mode] and
    out of [save_mode]. *)
Theorem C6_config_dir_failure_propagates `{P : Platform}
    (value : pyvalue) (fs : filesystem) :
  makedirs_ok fs = false →
  load_mode fs = Raises OSError ∧ save_mode value fs = (Raises OSError, fs).
Proof.
  intros Hd. unfold load_mode, save_mode, _get_config_path, os_makedirs.
  by rewrite Hd.
Qed.

Lemma C6_config_dir_failure_witness :
  load_mode (P := Sample.platform) Sample.blocked_host = Raises OSError
  ∧ save_mode (P := Sample.platform) (PStr "permanent") Sample.blocked_host
    = (Raises OSError, Sample.blocked_host).
Proof.
  apply (C6_config_dir_failure_propagates (P := Sample.platform)). reflexivity.
Defined.

(** * Further properties of the handler *)

Section HandlerFacts.
Context `{P : Platform}.

(** The four things the dispatcher can do. *)
Lemma dispatch_shape (data : pyvalue) (w : world) :
  ((∀ d, data ≠ PDict d) ∧ dispatch data w = (Raises AttributeError, w))
  ∨ ((∃ d, data = PDict d) ∧ dispatch data w = (Returns (), w))
  ∨ (∃ d c, data = PDict d ∧ c ≠ sct_grab
            ∧ dispatch data w = (Returns (), emit w [EBridge c]))
  ∨ (∃ d, data = PDict d ∧ d !! "type" = Some (PStr "screenshot")
          ∧ dispatch data w
            = (Returns (),
               World (last_activity w) (time_calls w) (S (grabs w))
                     (trace w ++ [EBridge sct_grab;
                                  ESend (screenshot_reply (display (grabs w)))]))).
Proof.
  destruct data as [| | | | | | d];
    try (left; split; [done | by apply dispatch_not_dict]).
  right.
  destruct (py_eq_str (default PNone (d !! "type")) "click") eqn:E1.
  { apply type_lookup in E1 as Ht.
    rewrite (dispatch_pointer d "click" w (or_introl eq_refl) Ht).
    destruct (_ && _); [right; left | left].
    - eexists d, _. by repeat split.
    - rewrite emit_nil. eauto. }
  destruct (py_eq_str (default PNone (d !! "type")) "move") eqn:E2.
  { apply type_lookup in E2 as Ht.
    rewrite (dispatch_pointer d "move" w (or_intror eq_refl) Ht).
    destruct (_ && _); [right; left | left].
    - eexists d, _. by repeat split.
    - rewrite emit_nil. eauto. }
  destruct (py_eq_str (default PNone (d !! "type")) "type_text") eqn:E3.
  { apply type_lookup in E3 as Ht. rewrite (dispatch_type_text d w Ht).
    right; left. eexists d, _. by repeat split. }
  destruct (py_eq_str (default PNone (d !! "type")) "key") eqn:E4.
  { apply type_lookup in E4 as Ht. rewrite (dispatch_key d w Ht).
    destruct (truthy _); [right; left | left].
    - eexists d, _. by repeat split.
    - rewrite emit_nil. eauto. }
  destruct (py_eq_str (default PNone (d !! "type")) "screenshot") eqn:E5.
  { apply type_lookup in E5 as Ht. rewrite (dispatch_screenshot d w Ht).
    right; right. eauto. }
  left. split; [eauto |].
  apply dispatch_unrecognized. unfold recognized. by rewrite E1, E2, E3, E4, E5.
Qed.

Lemma accounted_refl (w : world) : accounted w w [].
Proof. unfold accounted. simpl. rewrite app_nil_r. repeat split; lia. Qed.

Lemma accounted_trans (w1 w2 w3 : world) (es1 es2 : list event) :
  accounted w1 w2 es1 → accounted w2 w3 es2 → accounted w1 w3 (es1 ++ es2).
Proof.
  intros (Ht1 & Hc1 & Hs1 & Hg1 & Hr1 & Hb1 & Hl1) (Ht2 & Hc2 & Hs2 & Hg2 & Hr2 & Hb2 & Hl2).
  unfold accounted.
  rewrite stamps_app, replies_app, bridge_calls_app, !length_app.
  rewrite !seq_app, !fmap_app, <- Hc1, <- Hg1, <- Hs1, <- Hs2, <- Hr1, <- Hr2.
  rewrite Ht2, Ht1, <- app_assoc. repeat split; lia.
Qed.

Lemma stamp_accounted (w : world) :
  accounted w (stamp w) [EActivity (clock (time_calls w))].
Proof. unfold accounted. simpl. repeat split; lia. Qed.

Lemma on_message_accounted (message : string) (w : world) :
  ∃ es, accounted w (on_message message w).2 es ∧ (length (stamps es) ≤ 1)%nat.
Proof.
  destruct (json_loads message) as [data | e] eqn:Hload.
  2: { exists []. split; [| simpl; lia].
       assert ((on_message message w).2 = w) as ->; [| apply accounted_refl].
       unfold on_message. rewrite Hload. by destruct e. }
  rewrite (on_message_decoded _ _ _ Hload).
  pose proof (stamp_accounted w) as Hst.
  destruct (dispatch_shape data (stamp w))
    as [[_ ->] | [[_ ->] | [(d & c & _ & Hc & ->) | (d & _ & _ & ->)]]].
  - eexists. split; [exact Hst | done].
  - eexists. split; [exact Hst | done].
  - exists [EActivity (clock (time_calls w)); EBridge c]. split; [| done].
    unfold accounted. simpl. rewrite <- app_assoc. simpl. repeat split; lia.
  - exists [EActivity (clock (time_calls w)); EBridge sct_grab;
            ESend (screenshot_reply (display (grabs w)))]. split; [| done].
    unfold accounted. simpl. rewrite <- app_assoc. simpl. repeat split; lia.
Qed.

Lemma receive_loop_accounted (ms : list string) (w : world) :
  ∃ es, accounted w (receive_loop ms w).2 es ∧ (length (stamps es) ≤ length ms)%nat.
Proof.
  revert w. induction ms as [| m ms IH]; intros w.
  { exists []. split; [apply accounted_refl | done]. }
  simpl. unfold mbind, M_bind.
  destruct (on_message_accounted m w) as (es1 & Hacc1 & Hlen1).
  destruct (on_message m w) as [[[] | e] w1]; simpl in *.
  - destruct (IH w1) as (es2 & Hacc2 & Hlen2).
    exists (es1 ++ es2). split; [by eapply accounted_trans |].
    rewrite stamps_app, length_app. lia.
  - exists es1. split; [done | lia].
Qed.

Lemma handle_client_accounted (ws : list string) (w : world) :
  ∃ es, accounted w (handle_client ws w).2 es
        ∧ (1 ≤ length (stamps es) ≤ 1 + length ws)%nat
        ∧ (length (bridge_calls es) < length (stamps es))%nat.
Proof.
  rewrite handle_client_stamp.
  destruct (receive_loop_accounted ws (stamp w)) as (es & Hacc & Hlen).
  exists ([EActivity (clock (time_calls w))] ++ es).
  split; [eapply accounted_trans; [apply stamp_accounted | done] |].
  destruct Hacc as (_ & _ & _ & _ & _ & _ & Hb).
  rewrite stamps_app, bridge_calls_app, !length_app. simpl. lia.
Qed.

End HandlerFacts.

Section HandlerExtras.
Context `{P : Platform}.



End HandlerExtras.

(** X1. Frames that [json.loads] rejects with [JSONDecodeError] are
    invisible: the handler ends with the same result and leaves the same
    world as on the connection without them. *)
Theorem undecodable_frames_skipped `{P : Platform} (ws : list string) (w : world) :
  handle_client ws w = handle_client (filter (λ m, decode_error m = false) ws) w.
Proof.
  rewrite !handle_client_stamp. generalize (stamp w). clear w.
  induction ws as [| m ws IH]; intros w; [done |].
  rewrite filter_cons.
  destruct (decide (decode_error m = false)) as [Hd | Hd].
  - simpl. unfold mbind, M_bind.
    destruct (on_message m w) as [[[] | e'] w']; [apply IH | done].
  - assert (json_loads m = Raises JSONDecodeError) as Hload.
    { unfold decode_error in Hd. by destruct (json_loads m) as [data | []]. }
    rewrite (proj2 (undecodable_frame_dropped m ws w Hload)). apply IH.
Qed.

(** X2. A record whose type is absent, is not a string, or is a string
    other than the five command names (the comparison is exact, so "Click"
    is not "click") makes no Input Bridge call and sends nothing; it still
    refreshes [last_activity], and the loop goes on. *)
Theorem unknown_type_only_refreshes `{P : Platform}
    (message : string) (d : gmap string pyvalue) (rest : list string) (w : world) :
  json_loads message = Returns (PDict d) →
  d !! "type" = None
  ∨ (∃ v, d !! "type" = Some v ∧ ∀ s, v ≠ PStr s)
  ∨ (∃ s, d !! "type" = Some (PStr s)
          ∧ s ∉ ["click"; "move"; "type_text"; "key"; "screenshot"]) →
  on_message message w = (Returns (), stamp w)
  ∧ last_activity (on_message message w).2 = clock (time_calls w)
  ∧ bridge_calls (trace (on_message message w).2) = bridge_calls (trace w)
  ∧ replies (trace (on_message message w).2) = replies (trace w)
  ∧ receive_loop (message :: rest) w = receive_loop rest (stamp w).
Proof.
  intros Hload Htype.
  assert (recognized (default PNone (d !! "type")) = false) as Hun.
  { destruct Htype as [-> | [(v & -> & Hv) | (s & -> & Hs)]]; [done | |].
    - destruct v; try done. by destruct (Hv s).
    - unfold recognized. simpl.
      repeat (apply orb_false_intro); apply String.eqb_neq; intros ->;
        apply Hs; set_solver. }
  destruct (unrecognized_frame_dropped message d rest w Hload Hun) as [Hrun Hloop].
  rewrite Hrun. simpl.
  rewrite bridge_calls_app, replies_app. simpl. by rewrite !app_nil_r.
Qed.

Lemma unknown_type_only_refreshes_witness :
  on_message (P := Sample.platform) Sample.untyped_frame Sample.boot
  = (Returns (), stamp (P := Sample.platform) Sample.boot).
Proof.
  refine (proj1 (unknown_type_only_refreshes (P := Sample.platform)
                   Sample.untyped_frame {[ "x" := PInt 1 ]} [] Sample.boot _ _)).
  - vm_compute. reflexivity.
  - left. reflexivity.
Defined.

(** X3. A frame of type "key" presses the value of its key field once,
    whatever its type, when that value is truthy, and makes no call
    otherwise. *)
Theorem key_frame_press `{P : Platform}
    (message : string) (d : gmap string pyvalue) (w : world) :
  json_loads message = Returns (PDict d) →
  d !! "type" = Some (PStr "key") →
  let key := default PNone (d !! "key") in
  on_message message w
  = (Returns (), emit (stamp w) (if truthy key then [EBridge (pyautogui_press key)] else []))
  ∧ bridge_calls (trace (on_message message w).2)
    = bridge_calls (trace w) ++ (if truthy key then [pyautogui_press key] else []).
Proof.
  intros Hload Ht key.
  rewrite (on_message_decoded _ _ _ Hload), (dispatch_key _ _ Ht). fold key.
  split; [done |]. simpl. rewrite !bridge_calls_app. simpl.
  destruct (truthy key); by rewrite ?app_nil_r.
Qed.

Lemma key_frame_press_witness :
  bridge_calls
    (trace (on_message (P := Sample.platform) Sample.key_enter_frame Sample.boot).2)
  = bridge_calls (trace Sample.boot) ++ [pyautogui_press (PStr "enter")].
Proof.
  refine (proj2 (key_frame_press (P := Sample.platform) Sample.key_enter_frame
                   {[ "type" := PStr "key"; "key" := PStr "enter" ]} Sample.boot _ _)).
  - vm_compute. reflexivity.
  - reflexivity.
Defined.



(** X5. On a connection, every clock reading the handler takes is written
    to [last_activity]: the writes logged are the successive readings, one
    when the connection is accepted and at most one per frame. *)
Theorem every_reading_is_stamped `{P : Platform} (ws : list string) (w : world) :
  ∃ es n,
    trace (handle_client ws w).2 = trace w ++ es
    ∧ stamps es = clock <$> seq (time_calls w) n
    ∧ time_calls (handle_client ws w).2 = (time_calls w + n)%nat
    ∧ (1 ≤ n ≤ 1 + length ws)%nat.
Proof.
  destruct (handle_client_accounted ws w)
    as (es & (Ht & Hc & Hs & _) & Hn & _).
  exists es, (length (stamps es)). auto.
Qed.

(** X6. Every reply the handler sends carries a capture of its own: the
    replies of a connection are the encodings of the successive states of
    the display, one capture per reply, none reused. *)
Theorem replies_are_fresh_captures `{P : Platform} (ws : list string) (w : world) :
  ∃ es k,
    trace (handle_client ws w).2 = trace w ++ es
    ∧ replies es = (λ i, screenshot_reply (display i)) <$> seq (grabs w) k
    ∧ grabs (handle_client ws w).2 = (grabs w + k)%nat.
Proof.
  destruct (handle_client_accounted ws w)
    as (es & (Ht & _ & _ & Hg & Hr & _) & _).
  exists es, (length (replies es)). auto.
Qed.

(** X7. The handler makes at most one Input Bridge call and sends at most
    one reply per frame received. *)
Theorem at_most_one_call_per_frame `{P : Platform} (ws : list string) (w : world) :
  ∃ es,
    trace (handle_client ws w).2 = trace w ++ es
    ∧ (length (replies es) ≤ length (bridge_calls es) ≤ length ws)%nat.
Proof.
  destruct (handle_client_accounted ws w)
    as (es & (Ht & _ & _ & _ & _ & Hrb & _) & Hn & Hb).
  exists es. split; [done | lia].
Qed.

(** * Further properties of the idle monitor *)

(** X8. The monitor exits exactly when some wake-up finds the mode equal to
    the string "temporary" and more than 7200 seconds between
    [last_activity] and its clock reading. An idle time of exactly 7200
    seconds is not enough, and no other value of the mode ever exits. *)
Theorem monitor_exits_iff (polls : list observation) :
  (monitor polls = Terminated
   ↔ Exists (λ o, obs_mode o = PStr "temporary"
                  ∧ (7200 < obs_now o - obs_last_activity o)%Q) polls)
  ∧ (∀ t : Q, monitor_poll (PStr "temporary") t (t + 7200) = Active)
  ∧ (Forall (λ o, obs_mode o ≠ PStr "temporary") polls → monitor polls = Active).
Proof.
  assert (monitor polls = Terminated
          ↔ Exists (λ o, obs_mode o = PStr "temporary"
                         ∧ (7200 < obs_now o - obs_last_activity o)%Q) polls) as Hiff.
  { induction polls as [| o polls IH]; simpl.
    - split; [done | by inversion 1].
    - rewrite Exists_cons, <- IH, <- monitor_poll_terminated.
      destruct (monitor_poll _ _ _).
      + split; [by right | by intros [? | ?]].
      + split; [by left | done]. }
  split; [done | split].
  - intros t. destruct (monitor_poll _ _ _) eqn:E; [done |].
    apply monitor_poll_terminated in E as [_ Hlt]. exfalso.
    apply (Qlt_irrefl 7200). eapply Qlt_le_trans; [exact Hlt |].
    apply Qle_lteq. right. ring.
  - intros Hall. revert Hiff. destruct (monitor polls); [done |].
    intros [Hex _]. specialize (Hex eq_refl).
    apply Exists_exists in Hex as (o & Ho & Hm & _).
    rewrite Forall_forall in Hall. by destruct (Hall o Ho).
Qed.

Lemma monitor_exits_iff_witness :
  monitor [ {| obs_mode := PNone; obs_last_activity := inject_Z 0;
               obs_now := inject_Z 100000 |};
            {| obs_mode := PStr "Temporary"; obs_last_activity := inject_Z 0;
               obs_now := inject_Z 200000 |} ] = Active.
Proof.
  apply (proj2 (proj2 (monitor_exits_iff _))). repeat constructor; discriminate.
Defined.

Section KeepAlive.
Context `{P : Platform}.

Lemma receive_loop_garbage (ws : list string) (w : world) :
  Forall (λ m, decode_error m = true) ws → receive_loop ws w = (Returns (), w).
Proof.
  induction 1 as [| m ws Hm _ IH]; [done |].
  assert (json_loads m = Raises JSONDecodeError) as Hload.
  { unfold decode_error in Hm. by destruct (json_loads m) as [data | []]. }
  by rewrite (proj2 (undecodable_frame_dropped m ws w Hload)).
Qed.

End KeepAlive.

(** X9. A frame that decodes keeps the process alive: a wake-up of the
    monitor whose clock reading is at most 7200 seconds after the reading
    taken for the frame does not exit, whatever the mode and whatever the
    dispatcher then did with the frame. *)
Theorem decoded_frame_keeps_alive `{P : Platform}
    (message : string) (data mode : pyvalue) (w : world) (now : Q) :
  json_loads message = Returns data →
  (now - clock (time_calls w) <= 7200)%Q →
  monitor_poll mode (last_activity (on_message message w).2) now = Active.
Proof.
  intros Hload Hle.
  destruct (on_message_effects message w)
    as [(e & He & _) | (data' & r & g & es & _ & -> & _)]; [congruence |].
  simpl. destruct (monitor_poll _ _ _) eqn:E; [done |].
  apply monitor_poll_terminated in E as [_ Hlt].
  by apply Qlt_not_le in Hlt.
Qed.

Lemma decoded_frame_keeps_alive_witness :
  monitor_poll (PStr "temporary")
    (last_activity (on_message (P := Sample.platform) Sample.untyped_frame Sample.boot).2)
    (inject_Z 8210)
  = Active.
Proof.
  apply (decoded_frame_keeps_alive (P := Sample.platform) Sample.untyped_frame
           (PDict {[ "x" := PInt 1 ]})).
  - vm_compute. reflexivity.
  - vm_compute. discriminate.
Defined.

(** X10. Traffic that does not decode does not count as activity: after a
    connection on which every frame was rejected by the decoder,
    [last_activity] is the reading taken when the connection was accepted,
    and in mode "temporary" a wake-up more than 7200 seconds after that
    reading exits. *)
Theorem undecodable_traffic_is_idle `{P : Platform}
    (ws : list string) (w : world) (now : Q) :
  Forall (λ m, decode_error m = true) ws →
  (7200 < now - clock (time_calls w))%Q →
  handle_client ws w = (Returns (), stamp w)
  ∧ monitor_poll (PStr "temporary") (last_activity (handle_client ws w).2) now
    = Terminated.
Proof.
  intros Hall Hlt.
  rewrite handle_client_stamp, receive_loop_garbage by done.
  split; [done |]. by apply monitor_poll_terminated.
Qed.

Lemma undecodable_traffic_is_idle_witness :
  monitor_poll (PStr "temporary")
    (last_activity
       (handle_client (P := Sample.platform)
          [Sample.garbage_frame; Sample.garbage_frame] Sample.boot).2)
    (inject_Z 8211)
  = Terminated.
Proof.
  refine (proj2 (undecodable_traffic_is_idle (P := Sample.platform)
                   [Sample.garbage_frame; Sample.garbage_frame] Sample.boot
                   (inject_Z 8211) _ _)).
  - repeat constructor.
  - vm_compute. reflexivity.
Defined.

(** * Further properties of the mode store *)


(** X11. Once the configuration directory exists, [save_mode] never raises
    and touches no file but the configuration file; when the file cannot be
    opened for writing it changes nothing at all. *)
Theorem save_mode_contained `{P : Platform} (value : pyvalue) (fs : filesystem) :
  makedirs_ok fs = true →
  (save_mode value fs).1 = Returns ()
  ∧ (∀ p, p ≠ os_path_join (os_path_join (config_base fs) CONFIG_DIR_NAME)
                           CONFIG_FILE_NAME →
          files (save_mode value fs).2 !! p = files fs !! p)
  ∧ (open_w_ok fs = false → (save_mode value fs).2 = fs).
Proof.
  intros Hd. unfold save_mode. rewrite (config_path _ Hd). unfold write_text.
  destruct (open_w_ok fs); [| done].
  destruct (flush_ok fs); simpl;
    (split; [done | split; [| done]]); intros p Hp; by rewrite lookup_insert_ne.
Qed.

Lemma save_mode_contained_witness :
  (save_mode (P := Sample.platform) (PStr "temporary") Sample.full_disk_host).1
  = Returns ().
Proof.
  refine (proj1 (save_mode_contained (P := Sample.platform) (PStr "temporary")
                   Sample.full_disk_host _)).
  reflexivity.
Defined.


Lemma load_mode_bad_file `{P : Platform}
    (fs : filesystem) (path text : string) :
  _get_config_path fs = Returns path →
  files fs !! path = Some text →
  open_r_ok fs = false
  ∨ (∃ e, json_loads text = Raises e)
  ∨ (∃ data, json_loads text = Returns data ∧ ∀ d, data ≠ PDict d)
  ∨ (∃ d, json_loads text = Returns (PDict d)
          ∧ (d !! "mode" = None ∨ d !! "mode" = Some PNone)) →
  load_mode fs = Returns PNone.
Proof.
  intros Hp Hf Hbad. unfold load_mode. rewrite Hp. simpl. rewrite Hf.
  rewrite bool_decide_eq_true_2 by eauto. simpl.
  unfold read_text. rewrite Hf.
  destruct Hbad as [-> | [(e & Hl) | [(data & Hl & Hnd) | (d & Hl & Hm)]]]; [done | ..];
    destruct (open_r_ok fs); simpl; try done; rewrite Hl; simpl; try done.
  - destruct data; try done. by destruct (Hnd d).
  - by destruct Hm as [-> | ->].
Qed.

(** X13. Once the path of the configuration file is known, [load_mode]
    does not raise, and a file that cannot be opened, that is not JSON, that
    holds JSON other than a record, or whose record has no mode or a null
    mode reads as no mode: [load_mode] returns None. *)
Theorem load_mode_tolerates_bad_file `{P : Platform} (fs : filesystem) (path : string) :
  _get_config_path fs = Returns path →
  (∃ v, load_mode fs = Returns v)
  ∧ (∀ text,
       files fs !! path = Some text →
       open_r_ok fs = false
       ∨ (∃ e, json_loads text = Raises e)
       ∨ (∃ data, json_loads text = Returns data ∧ ∀ d, data ≠ PDict d)
       ∨ (∃ d, json_loads text = Returns (PDict d)
               ∧ (d !! "mode" = None ∨ d !! "mode" = Some PNone)) →
       load_mode fs = Returns PNone).
Proof.
  intros Hp. split.
  - destruct (load_mode_returns fs path Hp) as (v & Hv & _). eauto.
  - intros text Hf Hbad. by eapply load_mode_bad_file.
Qed.

Lemma load_mode_tolerates_bad_file_witness :
  load_mode (P := Sample.platform) Sample.corrupt_host = Returns PNone.
Proof.
  refine (proj2 (load_mode_tolerates_bad_file (P := Sample.platform) Sample.corrupt_host
                   Sample.config_file _) "[]" _ _).
  - reflexivity.
  - reflexivity.
  - right. right. left. exists (PList []). split; [vm_compute; reflexivity | discriminate].
Defined.

(** X14. A save that fails while the data is flushed loses the mode saved
    before: the file was truncated when it was opened, the error is
    swallowed, and the next [load_mode] returns None, given that the decoder
    rejects the empty text. *)
Theorem failed_flush_loses_mode `{P : Platform}
    (value : pyvalue) (fs : filesystem) (e : exn) :
  makedirs_ok fs = true → open_w_ok fs = true → flush_ok fs = false →
  json_loads EmptyString = Raises e →
  (save_mode value fs).1 = Returns ()
  ∧ load_mode (save_mode value fs).2 = Returns PNone.
Proof.
  intros Hd Hw Hf Hempty.
  rewrite (save_mode_flush_failure value fs _ (config_path _ Hd) Hw Hf). simpl.
  split; [done |].
  eapply load_mode_bad_file.
  - rewrite config_path_with_files. by apply config_path.
  - simpl. apply lookup_insert_eq.
  - right. left. eauto.
Qed.

Lemma failed_flush_loses_mode_witness :
  load_mode (P := Sample.platform) Sample.full_disk_host = Returns (PStr "permanent")
  ∧ load_mode (P := Sample.platform)
      (save_mode (P := Sample.platform) (PStr "temporary") Sample.full_disk_host).2
    = Returns PNone.
Proof.
  split; [vm_compute; reflexivity |].
  refine (proj2 (failed_flush_loses_mode (P := Sample.platform) (PStr "temporary")
                   Sample.full_disk_host JSONDecodeError _ _ _ _)).
  - reflexivity.
  - reflexivity.
  - reflexivity.
  - vm_compute. reflexivity.
Defined.

(** * The autostart registration *)

Lemma with_run_values_twice (reg : registry) (u v : gmap string string) :
  with_run_values (with_run_values reg u) v = with_run_values reg v.
Proof. reflexivity. Qed.

Lemma with_run_values_same (reg : registry) :
  with_run_values reg (run_values reg) = reg.
Proof. by destruct reg. Qed.

(** X15. [set_startup] never raises, changes no value of the Run key other
    than its own, and does nothing at all where [winreg] is missing or the
    key cannot be opened. *)
Theorem set_startup_contained (rt : runtime) (enabled : bool) (reg : registry) :
  (set_startup rt enabled reg).1 = Returns ()
  ∧ (∀ name, name ≠ RUN_VALUE_NAME →
       run_values (set_startup rt enabled reg).2 !! name = run_values reg !! name)
  ∧ (winreg_available reg = false ∨ create_key_ok reg = false →
       (set_startup rt enabled reg).2 = reg).
Proof.
  unfold set_startup, set_startup_body, winreg_CreateKey, winreg_SetValueEx,
    winreg_DeleteValue.
  destruct (winreg_available reg), (create_key_ok reg), enabled; simpl;
    try (split; [done | split; [done | by intros [? | ?]]]).
  - destruct (set_value_ok reg); simpl;
      (split; [done | split; [| by intros [? | ?]]]); [| done].
    intros name Hn. by rewrite lookup_insert_ne.
  - destruct (delete_value_ok reg); [| simpl; by intuition].
    destruct (run_values reg !! RUN_VALUE_NAME); simpl;
      (split; [done | split; [| by intros [? | ?]]]); [| done].
    intros name Hn. by rewrite lookup_delete_ne.
Qed.

Lemma set_startup_contained_witness :
  (set_startup Sample.script true Sample.no_winreg).2 = Sample.no_winreg.
Proof.
  apply (proj2 (proj2 (set_startup_contained Sample.script true Sample.no_winreg))).
  left. reflexivity.
Defined.

Lemma set_startup_twice (rt : runtime) (enabled : bool) (reg : registry) :
  set_startup rt enabled (set_startup rt enabled reg).2 = set_startup rt enabled reg.
Proof.
  unfold set_startup, set_startup_body, winreg_CreateKey, winreg_SetValueEx,
    winreg_DeleteValue.
  destruct (winreg_available reg) eqn:Ha, (create_key_ok reg) eqn:Hc, enabled; simpl;
    rewrite ?Ha, ?Hc; simpl; try done.
  - destruct (set_value_ok reg) eqn:Hs; simpl; rewrite ?Ha, ?Hc, ?Hs; simpl; [| done].
    by rewrite with_run_values_twice, insert_insert_eq.
  - destruct (delete_value_ok reg) eqn:Hdel; simpl; [| by rewrite Ha, Hc, Hdel].
    destruct (run_values reg !! RUN_VALUE_NAME) eqn:Hv; simpl;
      rewrite Ha, Hc, Hdel; simpl; [| by rewrite Hv].
    by rewrite lookup_delete_eq.
Qed.


(** X17. On a registry where the operations succeed, enabling stores the
    path of the program between double quotes (the executable when the
    program is frozen, the script otherwise) under the name "VisualEyesPC",
    disabling removes the value, also when it was not there, and after two
    calls only the second one shows. *)
Theorem set_startup_last_call_wins
    (rt : runtime) (first second : bool) (reg : registry) :
  winreg_available reg = true → create_key_ok reg = true →
  set_value_ok reg = true → delete_value_ok reg = true →
  run_values (set_startup rt true reg).2 !! RUN_VALUE_NAME
  = Some (String double_quote
            ((if sys_frozen rt then sys_executable rt else script_abspath rt)
             +:+ String double_quote EmptyString))
  ∧ run_values (set_startup rt false reg).2 !! RUN_VALUE_NAME = None
  ∧ (set_startup rt second (set_startup rt first reg).2).2
    = (set_startup rt second reg).2.
Proof.
  intros Ha Hc Hs Hdel.
  unfold set_startup, set_startup_body, winreg_CreateKey, winreg_SetValueEx,
    winreg_DeleteValue.
  rewrite Ha, Hc, Hs, Hdel. simpl. split; [apply lookup_insert_eq | split].
  - destruct (run_values reg !! RUN_VALUE_NAME) eqn:Hv; simpl; [| done].
    apply lookup_delete_eq.
  - destruct first, second; simpl; rewrite ?Ha, ?Hc, ?Hs, ?Hdel; simpl.
    + by rewrite with_run_values_twice, insert_insert_eq.
    + rewrite lookup_insert_eq. simpl. rewrite with_run_values_twice, delete_insert_eq.
      destruct (run_values reg !! RUN_VALUE_NAME) eqn:Hv; simpl; [done |].
      by rewrite delete_id, with_run_values_same.
    + destruct (run_values reg !! RUN_VALUE_NAME) eqn:Hv; simpl;
        rewrite Ha, Hc, Hs; simpl; [| done].
      by rewrite with_run_values_twice, insert_delete_eq.
    + destruct (run_values reg !! RUN_VALUE_NAME) eqn:Hv; simpl;
        rewrite Ha, Hc, Hdel; simpl; [| by rewrite Hv].
      by rewrite lookup_delete_eq.
Qed.

Lemma set_startup_last_call_wins_witness :
  run_values (set_startup Sample.script true Sample.windows_registry).2 !! RUN_VALUE_NAME
  = Some (String double_quote ("C:/VisualEyes/server.py" +:+ String double_quote EmptyString)).
Proof.
  refine (proj1 (set_startup_last_call_wins Sample.script true false
                   Sample.windows_registry _ _ _ _)); reflexivity.
Defined.

Lemma set_startup_values (rt : runtime) (reg : registry) :
  winreg_available reg = true → create_key_ok reg = true →
  set_value_ok reg = true → delete_value_ok reg = true →
  is_Some (run_values (set_startup rt true reg).2 !! RUN_VALUE_NAME)
  ∧ run_values (set_startup rt false reg).2 !! RUN_VALUE_NAME = None.
Proof.
  intros Ha Hc Hs Hdel.
  unfold set_startup, set_startup_body, winreg_CreateKey, winreg_SetValueEx,
    winreg_DeleteValue.
  rewrite Ha, Hc, Hs, Hdel. simpl. split.
  - rewrite lookup_insert_eq. eauto.
  - destruct (run_values reg !! RUN_VALUE_NAME) eqn:Hv; simpl; [| done].
    apply lookup_delete_eq.
Qed.

Lemma save_mode_returns `{P : Platform} (value : pyvalue) (fs : filesystem) :
  makedirs_ok fs = true → (save_mode value fs).1 = Returns ().
Proof.
  intros Hd. unfold save_mode. rewrite (config_path _ Hd). unfold write_text.
  by destruct (open_w_ok fs), (flush_ok fs).
Qed.

(** * The window and the choice of the mode *)

Section GuiFacts.
Context `{P : Platform}.

Lemma run_gui_loaded (h : host) (existing : pyvalue) :
  load_mode (host_fs h) = Returns existing →
  truthy existing = true →
  let h1 := with_reg h (set_startup (host_rt h) (py_eq_str existing "permanent")
                          (host_reg h)).2 in
  run_gui h = (Returns (), ({| app_mode := existing; app_view := show_main h1 |}, h1)).
Proof. intros Hl Ht. unfold run_gui. by rewrite Hl, Ht. Qed.

Lemma run_gui_unset (h : host) (existing : pyvalue) :
  load_mode (host_fs h) = Returns existing →
  truthy existing = false →
  run_gui h = (Returns (), ({| app_mode := PStr "temporary"; app_view := ModePrompt |}, h)).
Proof. intros Hl Ht. unfold run_gui. by rewrite Hl, Ht. Qed.

Lemma load_mode_record (fs : filesystem) (path text : string) (d : gmap string pyvalue) :
  _get_config_path fs = Returns path →
  files fs !! path = Some text →
  open_r_ok fs = true →
  json_loads text = Returns (PDict d) →
  load_mode fs = Returns (default PNone (d !! "mode")).
Proof.
  intros Hp Hf Hr Hl. unfold load_mode. rewrite Hp. simpl. rewrite Hf.
  rewrite bool_decide_eq_true_2 by eauto. simpl.
  unfold read_text. rewrite Hf, Hr. simpl. by rewrite Hl.
Qed.

End GuiFacts.

(** X18. A chosen mode survives a restart: on a host whose configuration
    file can be written and read back, after [choose_mode] with a non-empty
    name the window shows the address, and a process started afterwards
    comes up in that mode, shows the address without asking again and
    leaves the files and the registry as they are. *)
Theorem chosen_mode_survives_restart `{P : Platform}
    (selected : string) (a : app) (h : host) :
  selected ≠ EmptyString →
  makedirs_ok (host_fs h) = true → open_w_ok (host_fs h) = true →
  flush_ok (host_fs h) = true → open_r_ok (host_fs h) = true →
  json_loads (json_dumps (PDict {[ "mode" := PStr selected ]}))
  = Returns (PDict {[ "mode" := PStr selected ]}) →
  ∃ h1,
    choose_mode selected a h
    = (Returns (), ({| app_mode := PStr selected; app_view := show_main h1 |}, h1))
    ∧ run_gui h1
      = (Returns (), ({| app_mode := PStr selected; app_view := show_main h1 |}, h1)).
Proof.
  intros Hne Hd Hw Hf Hr Hcodec.
  destruct (mode_round_trip (PStr selected) (host_fs h) Hd Hw Hf Hr Hcodec)
    as [Hsave Hload].
  unfold choose_mode.
  destruct (save_mode (PStr selected) (host_fs h)) as [[[] | e] fs'] eqn:Hs;
    simpl in *; [| discriminate].
  eexists. split; [reflexivity |].
  rewrite (run_gui_loaded _ (PStr selected)); simpl; [| done |].
  - by rewrite set_startup_twice.
  - apply negb_true_iff. by apply String.eqb_neq.
Qed.

Lemma chosen_mode_survives_restart_witness :
  ∃ h1,
    choose_mode (P := Sample.platform) "permanent" initial_app Sample.pc
    = (Returns (), ({| app_mode := PStr "permanent"; app_view := show_main h1 |}, h1))
    ∧ run_gui (P := Sample.platform) h1
      = (Returns (), ({| app_mode := PStr "permanent"; app_view := show_main h1 |}, h1)).
Proof.
  apply (chosen_mode_survives_restart (P := Sample.platform)).
  - discriminate.
  - reflexivity.
  - reflexivity.
  - reflexivity.
  - reflexivity.
  - vm_compute. reflexivity.
Defined.

(** X19. After [choose_mode] on a host where the mode can be saved and the
    registry operations succeed, the program is registered for autostart
    exactly when the mode chosen is "permanent", whatever was registered
    before; the window then shows [ws://<address>:8765], with the loopback
    address when the local address could not be found. *)
Theorem autostart_follows_choice `{P : Platform}
    (selected : string) (a : app) (h : host) :
  makedirs_ok (host_fs h) = true →
  winreg_available (host_reg h) = true → create_key_ok (host_reg h) = true →
  set_value_ok (host_reg h) = true → delete_value_ok (host_reg h) = true →
  let run := choose_mode selected a h in
  run.1 = Returns ()
  ∧ (is_Some (run_values (host_reg run.2.2) !! RUN_VALUE_NAME) ↔ selected = "permanent")
  ∧ app_view run.2.1
    = MainView ("ws://" +:+ get_local_ip (host_route h) +:+ ":8765")
  ∧ ((∀ ip, host_route h ≠ Returns ip) →
       app_view run.2.1 = MainView "ws://127.0.0.1:8765").
Proof.
  intros Hd Ha Hc Hs Hdel run.
  destruct (set_startup_values (host_rt h) (host_reg h) Ha Hc Hs Hdel)
    as [Hon Hoff].
  unfold run, choose_mode.
  pose proof (save_mode_returns (PStr selected) (host_fs h) Hd) as Hsave.
  destruct (save_mode (PStr selected) (host_fs h)) as [[[] | e] fs'];
    simpl in *; [| discriminate].
  split; [done |]. split; [| split].
  - destruct (String.eqb selected "permanent") eqn:E.
    + apply String.eqb_eq in E. by split.
    + apply String.eqb_neq in E. rewrite Hoff. split; [by intros [? ?] | done].
  - done.
  - intros Hroute. unfold show_main. simpl.
    destruct (host_route h) as [ip |]; [by destruct (Hroute ip) | done].
Qed.

Lemma autostart_follows_choice_witness :
  let run := choose_mode (P := Sample.platform) "temporary" initial_app Sample.pc in
  run_values (host_reg run.2.2) !! RUN_VALUE_NAME = None
  ∧ app_view run.2.1 = MainView "ws://192.168.1.20:8765".
Proof.
  destruct (autostart_follows_choice (P := Sample.platform) "temporary" initial_app
              Sample.pc eq_refl eq_refl eq_refl eq_refl eq_refl)
    as (_ & Hreg & Hview & _).
  split; [| exact Hview].
  destruct (run_values _ !! RUN_VALUE_NAME) eqn:E; [| done].
  by destruct (proj1 Hreg (ex_intro _ s eq_refl)).
Defined.

(** X20. A start without a usable mode asks: when there is no
    configuration file, or the file cannot be read, is not a JSON record,
    or holds a falsy mode (none, null, the empty string, zero), [run_gui]
    shows the prompt and changes neither the files nor the registry. The
    mode stays "temporary" meanwhile, so the idle monitor exits a process
    left at the prompt for more than 7200 seconds. *)
Theorem start_without_mode_asks `{P : Platform} (h : host) (path : string) :
  _get_config_path (host_fs h) = Returns path →
  files (host_fs h) !! path = None
  ∨ (∃ text, files (host_fs h) !! path = Some text
             ∧ (open_r_ok (host_fs h) = false
                ∨ (∃ e, json_loads text = Raises e)
                ∨ (∃ data, json_loads text = Returns data ∧ ∀ d, data ≠ PDict d)
                ∨ (∃ d, json_loads text = Returns (PDict d)
                        ∧ truthy (default PNone (d !! "mode")) = false))) →
  run_gui h
  = (Returns (), ({| app_mode := PStr "temporary"; app_view := ModePrompt |}, h))
  ∧ (∀ last now : Q, (7200 < now - last)%Q →
       monitor_poll (app_mode (run_gui h).2.1) last now = Terminated).
Proof.
  intros Hp Hfile.
  assert (∃ v, load_mode (host_fs h) = Returns v ∧ truthy v = false) as (v & Hl & Hv).
  { destruct Hfile as [Hnone | (text & Hf & Hbad)].
    - exists PNone. split; [by eapply load_mode_unset | done].
    - destruct (open_r_ok (host_fs h)) eqn:Hr.
      + destruct Hbad as [? | [He | [Hnd | (d & Hl & Hv)]]]; [done | | |].
        * exists PNone. split; [| done]. eapply load_mode_bad_file; eauto.
        * exists PNone. split; [| done]. eapply load_mode_bad_file; eauto.
        * exists (default PNone (d !! "mode")). split; [| done].
          by eapply load_mode_record.
      + exists PNone. split; [| done]. eapply load_mode_bad_file; eauto. }
  rewrite (run_gui_unset h v Hl Hv). split; [done |].
  intros last now Hlt. simpl. by apply monitor_poll_terminated.
Qed.

Lemma start_without_mode_asks_witness :
  run_gui (P := Sample.platform) Sample.pc
  = (Returns (), ({| app_mode := PStr "temporary"; app_view := ModePrompt |}, Sample.pc)).
Proof.
  refine (proj1 (start_without_mode_asks (P := Sample.platform) Sample.pc
                   Sample.config_file _ _)).
  - reflexivity.
  - left. reflexivity.
Defined.

(** X21. A stored mode that is truthy but is neither "temporary" nor
    "permanent" is taken as it is: [run_gui] does not ask, removes the
    autostart value where the registry operations succeed, and the idle
    monitor never exits in that mode. *)
Theorem odd_stored_mode_runs_forever `{P : Platform}
    (h : host) (path text : string) (d : gmap string pyvalue) (v : pyvalue) :
  _get_config_path (host_fs h) = Returns path →
  files (host_fs h) !! path = Some text →
  open_r_ok (host_fs h) = true →
  json_loads text = Returns (PDict d) →
  d !! "mode" = Some v →
  truthy v = true → v ≠ PStr "temporary" → v ≠ PStr "permanent" →
  winreg_available (host_reg h) = true → create_key_ok (host_reg h) = true →
  delete_value_ok (host_reg h) = true →
  let run := run_gui h in
  run.1 = Returns ()
  ∧ app_mode run.2.1 = v
  ∧ (∃ url, app_view run.2.1 = MainView url)
  ∧ run_values (host_reg run.2.2) !! RUN_VALUE_NAME = None
  ∧ host_fs run.2.2 = host_fs h
  ∧ (∀ polls, Forall (λ o, obs_mode o = app_mode run.2.1) polls → monitor polls = Active).
Proof.
  intros Hp Hf Hr Hl Hm Hv Htemp Hperm Ha Hc Hdel run.
  assert (load_mode (host_fs h) = Returns v) as Hload.
  { rewrite (load_mode_record _ _ _ _ Hp Hf Hr Hl). by rewrite Hm. }
  assert (py_eq_str v "permanent" = false) as Hnp.
  { apply not_true_iff_false. by rewrite py_eq_str_true. }
  unfold run. rewrite (run_gui_loaded h v Hload Hv). simpl. rewrite Hnp.
  repeat split; eauto.
  - unfold set_startup, set_startup_body, winreg_CreateKey, winreg_DeleteValue.
    rewrite Ha, Hc, Hdel. simpl.
    destruct (run_values (host_reg h) !! RUN_VALUE_NAME) eqn:Hrv; simpl; [| done].
    apply lookup_delete_eq.
  - intros polls Hall. induction Hall as [| o polls Ho _ IH]; [done |].
    simpl. rewrite Ho.
    assert (py_eq_str v "temporary" = false) as Hnt.
    { apply not_true_iff_false. by rewrite py_eq_str_true. }
    unfold monitor_poll. by rewrite Hnt.
Qed.

Lemma odd_stored_mode_runs_forever_witness :
  let run := run_gui (P := Sample.platform) (Sample.pc_on Sample.odd_host) in
  app_mode run.2.1 = PStr "Permanent"
  ∧ run_values (host_reg run.2.2) !! RUN_VALUE_NAME = None.
Proof.
  assert (json_loads (Platform := Sample.platform)
            (Sample.dumps (PDict {[ "mode" := PStr "Permanent" ]}))
          = Returns (PDict {[ "mode" := PStr "Permanent" ]})) as Hl
    by (vm_compute; reflexivity).
  assert (files Sample.odd_host !! Sample.config_file
          = Some (Sample.dumps (PDict {[ "mode" := PStr "Permanent" ]}))) as Hf
    by (vm_compute; reflexivity).
  destruct (odd_stored_mode_runs_forever (P := Sample.platform)
              (Sample.pc_on Sample.odd_host) Sample.config_file _ _ (PStr "Permanent")
              eq_refl Hf eq_refl Hl eq_refl eq_refl
              ltac:(discriminate) ltac:(discriminate) eq_refl eq_refl eq_refl)
    as (_ & Hmode & _ & Hreg & _).
  by split.
Defined.

(** X22. Where the configuration directory cannot be created, [run_gui]
    raises before it shows anything, and [choose_mode] raises after it has
    assigned the global mode: the mode of the running process is the one
    chosen, nothing is saved, the registry is not touched and the window
    keeps showing what it showed. *)
Theorem choice_on_blocked_host `{P : Platform} (selected : string) (a : app) (h : host) :
  makedirs_ok (host_fs h) = false →
  run_gui h = (Raises OSError, (initial_app, h))
  ∧ choose_mode selected a h
    = (Raises OSError, ({| app_mode := PStr selected; app_view := app_view a |}, h)).
Proof.
  intros Hd. unfold run_gui, choose_mode.
  assert (load_mode (host_fs h) = Raises OSError) as ->.
  { unfold load_mode, _get_config_path, os_makedirs. by rewrite Hd. }
  assert (save_mode (PStr selected) (host_fs h) = (Raises OSError, host_fs h)) as ->.
  { unfold save_mode, _get_config_path, os_makedirs. by rewrite Hd. }
  split; [done |]. by destruct h.
Qed.

Lemma choice_on_blocked_host_witness :
  choose_mode (P := Sample.platform) "permanent"
    {| app_mode := PStr "temporary"; app_view := ModePrompt |}
    (Sample.pc_on Sample.blocked_host)
  = (Raises OSError,
     ({| app_mode := PStr "permanent"; app_view := ModePrompt |},
      Sample.pc_on Sample.blocked_host)).
Proof.
  refine (proj2 (choice_on_blocked_host (P := Sample.platform) "permanent" _
                   (Sample.pc_on Sample.blocked_host) _)).
  reflexivity.
Defined.

(** * The fields a frame is read by *)

Lemma dispatch_reads (d d' : gmap string pyvalue) `{P : Platform} (w : world) :
  (∀ k, k ∈ ["type"; "x"; "y"; "key"] →
        default PNone (d !! k) = default PNone (d' !! k)) →
  default (PStr EmptyString) (d !! "text") = default (PStr EmptyString) (d' !! "text") →
  dispatch (PDict d) w = dispatch (PDict d') w.
Proof.
  intros H Htext.
  unfold dispatch, mbind, M_bind, lift, py_get.
  rewrite (H "type"), (H "x"), (H "y"), (H "key"), Htext by set_solver.
  done.
Qed.

(** X23. Only the fields the command reads matter: a click or move frame is
    handled by its type, x and y alone, a text frame by type and text, a key
    frame by type and key, a screenshot frame by its type; any other field
    of the record, and any change to it, is ignored. *)
Theorem other_fields_ignored `{P : Platform}
    (m m' : string) (d d' : gmap string pyvalue) (w : world) :
  json_loads m = Returns (PDict d) →
  json_loads m' = Returns (PDict d') →
  d !! "type" = d' !! "type" →
  match d !! "type" with
  | Some (PStr "click") | Some (PStr "move") => d !! "x" = d' !! "x" ∧ d !! "y" = d' !! "y"
  | Some (PStr "type_text") => d !! "text" = d' !! "text"
  | Some (PStr "key") => d !! "key" = d' !! "key"
  | _ => True
  end →
  on_message m w = on_message m' w.
Proof.
  intros Hm Hm' Ht Hfields.
  rewrite (on_message_decoded _ _ _ Hm), (on_message_decoded _ _ _ Hm').
  generalize (stamp w). clear w. intros w.
  destruct (recognized (default PNone (d !! "type"))) eqn:Hrec.
  2: { rewrite !dispatch_unrecognized; [done | by rewrite <- Ht | done]. }
  unfold recognized in Hrec.
  repeat (apply orb_true_iff in Hrec as [Hrec | Hrec]);
    apply type_lookup in Hrec; pose proof Hrec as Hrec'; rewrite Ht in Hrec';
    rewrite Hrec in Hfields.
  - destruct Hfields as [Hx Hy].
    rewrite (dispatch_pointer d "click" w), (dispatch_pointer d' "click" w) by auto.
    by rewrite Hx, Hy.
  - destruct Hfields as [Hx Hy].
    rewrite (dispatch_pointer d "move" w), (dispatch_pointer d' "move" w) by auto.
    by rewrite Hx, Hy.
  - rewrite (dispatch_type_text d w), (dispatch_type_text d' w) by done.
    by rewrite Hfields.
  - rewrite (dispatch_key d w), (dispatch_key d' w) by done.
    by rewrite Hfields.
  - by rewrite (dispatch_screenshot d w), (dispatch_screenshot d' w).
Qed.

Lemma other_fields_ignored_witness :
  on_message (P := Sample.platform) Sample.click_noisy_frame Sample.boot
  = on_message (P := Sample.platform) Sample.click_frame Sample.boot.
Proof.
  apply (other_fields_ignored (P := Sample.platform) _ _
           {[ "type" := PStr "click"; "x" := PInt 100; "y" := PInt 200;
              "button" := PStr "right"; "key" := PStr "enter" ]}
           {[ "type" := PStr "click"; "x" := PInt 100; "y" := PInt 200 ]}).
  - vm_compute. reflexivity.
  - vm_compute. reflexivity.
  - reflexivity.
  - split; reflexivity.
Defined.

(** X24. A null field reads like an absent one for type, x, y and key, but
    not for text: the default of the text field applies only when the field
    is absent, so a text frame with a null text calls [typewrite(None)]
    where the frame without the field calls it with the empty string. *)
Theorem null_field_reads_as_absent `{P : Platform}
    (k : string) (d : gmap string pyvalue) (w : world) :
  k ∈ ["type"; "x"; "y"; "key"] →
  dispatch (PDict (<[k := PNone]> d)) w = dispatch (PDict (delete k d)) w
  ∧ (d !! "type" = Some (PStr "type_text") →
     dispatch (PDict (<["text" := PNone]> d)) w
     = (Returns (), emit w [EBridge (pyautogui_typewrite PNone)])
     ∧ dispatch (PDict (delete "text" d)) w
       = (Returns (), emit w [EBridge (pyautogui_typewrite (PStr EmptyString))])).
Proof.
  intros Hk. split.
  - apply dispatch_reads.
    + intros j _. destruct (decide (k = j)) as [-> | Hne].
      * by rewrite lookup_insert_eq, lookup_delete_eq.
      * by rewrite lookup_insert_ne, lookup_delete_ne.
    + assert (k ≠ "text") as Hne.
      { intros ->.
        repeat (apply elem_of_cons in Hk as [Hk | Hk]; [discriminate |]).
        by apply elem_of_nil in Hk. }
      by rewrite lookup_insert_ne, lookup_delete_ne.
  - intros Ht. split.
    + rewrite dispatch_type_text by (by rewrite lookup_insert_ne).
      by rewrite lookup_insert_eq.
    + rewrite dispatch_type_text by (by rewrite lookup_delete_ne).
      by rewrite lookup_delete_eq.
Qed.

Lemma null_field_reads_as_absent_witness :
  dispatch (P := Sample.platform)
    (PDict (<["x" := PNone]> {[ "type" := PStr "click"; "y" := PInt 3 ]})) Sample.boot
  = dispatch (P := Sample.platform)
      (PDict (delete "x" {[ "type" := PStr "click"; "y" := PInt 3 ]})) Sample.boot.
Proof.
  refine (proj1 (null_field_reads_as_absent (P := Sample.platform) "x"
                   {[ "type" := PStr "click"; "y" := PInt 3 ]} Sample.boot _)).
  right. left.
Defined.
